(** * beehive: the module system of package [bees] (src/bees/bees.go)

    A shallow embedding of the worker registry, the supervised run task and
    the event dispatcher of [bees.go], and the properties its specification
    states about them.

    Conventions of the embedding.
    - The package-level variables [eventsIn], [bees], [factories] and [chains]
      are fields of one record [World], threaded through every function.
    - A Go function is a computation [M A]: it takes the world and returns a
      result together with the new world.  A result is either a normal return
      or a panic in flight; the world survives a panic, as it does in Go.
    - [defer] and [recover] are two combinators, [defer_call] and
      [defer_recover], with Go's rules: deferred calls run on return and on
      panic, a panic raised by a deferred call replaces the one in flight, and
      a recovered panic lets the function return normally.
    - A [go] statement adds a task to [goroutines]; what the task does when it
      runs is a function of its own ([startBee], [chainTask], [handleEvents]).
    - Everything observable that the code does to its environment (log lines,
      method calls on workers, WaitGroup operations, channel closes) is
      appended to [trace]. *)

From Stdlib Require Import ZArith List String Lia.
From stdpp Require Import base gmap list strings fin_maps.
From Equations Require Import Equations.

(** Addresses of heap objects (workers, factories, wait groups, channels). *)
Abbreviation loc := nat.

(** time.Time, as a reading of a clock. *)
Abbreviation Time := nat (only parsing).

(** The value a panic carries.  The run-time panics the code can meet are
    spelled out; [PanicMsg] is a panic raised with a message, by the package
    ([NewBeeInstance]) or by code outside of it (a worker's run loop, the chain
    executor).  A panic value is never nil, so that [recover] returns nil
    only when no panic is in flight, as in Go 1.21 and later, where
    [panic(nil)] carries a run-time error. *)
Inductive PanicVal : Type :=
| PanicMsg (msg : string)
| NilDereference
| NegativeWaitGroupCounter
| CloseOfClosedChannel
| CloseOfNilChannel.

(** An [int32], as the integer it stands for: the value of [z] after it has
    been stored in 32 bits. *)
Definition int32 (z : Z) : Z :=
  ((z + 2147483648) mod 4294967296 - 2147483648)%Z.

(** The outcome of a call: normal return or a panic in flight. *)
Inductive result (A : Type) : Type :=
| Ok (a : A)
| Panic (e : PanicVal).
Arguments Ok {A} a.
Arguments Panic {A} e.

Declare Scope go_scope.
Delimit Scope go_scope with go.

Section Beehive.

(** Types declared in other files of the package; [bees.go] only stores them
    and passes them on. *)
Context {Placeholder BeeOption FilterOption Chain : Type}.

(** ** Data model *)

(** [type Bee struct]: the base struct embedded by bee implementations.
    [SigChan] and [waitGroup] are references ([chan bool],
    [*sync.WaitGroup]); [None] is nil. *)
Record Bee : Type := mkBee {
  BeeName : string;
  BeeNamespace : string;
  BeeDescription : string;
  BeeOptions : list BeeOption;
  lastEvent : Time;
  lastAction : Time;
  Running : bool;
  SigChan : option loc;
  waitGroup : option loc
}.

(** [type BeeInstance struct]; the fields [Name], [Class], [Description] and
    [Options]. *)
Record BeeInstance : Type := mkBeeInstance {
  InstanceName : string;
  InstanceClass : string;
  InstanceDescription : string;
  InstanceOptions : list BeeOption
}.

(** [type Event struct]; the fields [Bee], [Name] and [Options]. *)
Record Event : Type := mkEvent {
  EventBee : string;
  EventName : string;
  EventOptions : list Placeholder
}.

(** [type Action struct] *)
Record Action : Type := mkAction {
  ActionBee : string;
  ActionName : string;
  ActionOptions : list Placeholder
}.

(** [type Filter struct] *)
Record Filter : Type := mkFilter {
  FilterName : string;
  FilterOptions : list FilterOption
}.

(** A value behind [BeeInterface]: a concrete bee embedding [Bee].  Its run
    loop is code of the implementation; what the supervisor can see of it is
    whether the n-th call of [Run] returns ([None]) or panics ([Some e]).
    [runCalls] counts the calls made so far. *)
Record Worker : Type := mkWorker {
  base : Bee;
  runScript : nat -> option PanicVal;
  runCalls : nat
}.

(** An unbuffered [chan Event]: the events its senders are waiting to hand
    over, oldest first, and whether it has been closed. *)
Record EventChan : Type := mkEventChan {
  sendq : list Event;
  closed : bool
}.

(** What a [go] statement of the package starts. *)
Inductive Task : Type :=
| TaskStartBee (bee : loc) (fatals : Z)
| TaskChain (event : Event)
| TaskHandleEvents.

(** The lines the package logs. *)
Inductive LogLine : Type :=
| LogBlank
| LogStoppedHandler
| LogEventReceived (bee name description : string)
| LogOptions (v : Placeholder)
| LogFatalChain (e : PanicVal)
| LogWorkerReady (name description : string)
| LogTerminating (name : string) (fatals : Z)
| LogFatalBee (e : PanicVal) (fatals : Z)
| LogStopping (name : string).

(** What the package does to its environment. *)
Inductive Obs : Type :=
| Logged (l : LogLine)
| CallRun (bee : loc) (eventChannel : loc)
| CallStart (bee : loc)
| CallStop (bee : loc)
| CallLogEvent (bee : loc)
| CallSetSigChan (bee : loc) (c : loc)
| WgAdd (wg : loc) (delta : Z)
| ChanClose (c : loc).

(** The package-level variables, the heap they point into, the tasks started
    and the trace. *)
Record World : Type := mkWorld {
  eventsIn : loc;
  bees : gmap string loc;
  factories : gmap string loc;
  chains : list Chain;
  workers : gmap loc Worker;
  waitGroups : gmap loc Z;
  eventChans : gmap loc EventChan;
  sigChans : gset loc;
  goroutines : list Task;
  trace : list Obs;
  now : Time
}.

Definition set_eventsIn (c : loc) (w : World) : World :=
  mkWorld c (bees w) (factories w) (chains w) (workers w) (waitGroups w)
          (eventChans w) (sigChans w) (goroutines w) (trace w) (now w).
Definition set_bees (m : gmap string loc) (w : World) : World :=
  mkWorld (eventsIn w) m (factories w) (chains w) (workers w) (waitGroups w)
          (eventChans w) (sigChans w) (goroutines w) (trace w) (now w).
Definition set_chains (cs : list Chain) (w : World) : World :=
  mkWorld (eventsIn w) (bees w) (factories w) cs (workers w) (waitGroups w)
          (eventChans w) (sigChans w) (goroutines w) (trace w) (now w).
Definition set_workers (h : gmap loc Worker) (w : World) : World :=
  mkWorld (eventsIn w) (bees w) (factories w) (chains w) h (waitGroups w)
          (eventChans w) (sigChans w) (goroutines w) (trace w) (now w).
Definition set_waitGroups (h : gmap loc Z) (w : World) : World :=
  mkWorld (eventsIn w) (bees w) (factories w) (chains w) (workers w) h
          (eventChans w) (sigChans w) (goroutines w) (trace w) (now w).
Definition set_eventChans (h : gmap loc EventChan) (w : World) : World :=
  mkWorld (eventsIn w) (bees w) (factories w) (chains w) (workers w)
          (waitGroups w) h (sigChans w) (goroutines w) (trace w) (now w).
Definition set_sigChans (s : gset loc) (w : World) : World :=
  mkWorld (eventsIn w) (bees w) (factories w) (chains w) (workers w)
          (waitGroups w) (eventChans w) s (goroutines w) (trace w) (now w).
Definition set_goroutines (ts : list Task) (w : World) : World :=
  mkWorld (eventsIn w) (bees w) (factories w) (chains w) (workers w)
          (waitGroups w) (eventChans w) (sigChans w) ts (trace w) (now w).
Definition set_trace (t : list Obs) (w : World) : World :=
  mkWorld (eventsIn w) (bees w) (factories w) (chains w) (workers w)
          (waitGroups w) (eventChans w) (sigChans w) (goroutines w) t (now w).

(** ** Computations *)

Definition M (A : Type) : Type := World -> result A * World.

Definition ret {A} (a : A) : M A := fun w => (Ok a, w).

Definition bind {A B} (c : M A) (k : A -> M B) : M B :=
  fun w =>
    match c w with
    | (Ok a, w1) => k a w1
    | (Panic e, w1) => (Panic e, w1)
    end.

Definition panic {A} (e : PanicVal) : M A := fun w => (Panic e, w).

Definition gets {A} (f : World -> A) : M A := fun w => (Ok (f w), w).

Definition modify (f : World -> World) : M unit := fun w => (Ok tt, f w).

Notation "x <- c1 ;; c2" := (bind c1 (fun x => c2))
  (at level 100, c1 at next level, c2 at level 200, right associativity) : go_scope.
Notation "c1 ;; c2" := (bind c1 (fun _ => c2))
  (at level 100, c2 at level 200, right associativity) : go_scope.
Local Open Scope go_scope.

(** [for _, a := range l { f(a) }] over a slice. *)
Definition forM_ {A} (l : list A) (f : A -> M unit) : M unit :=
  fold_right (fun a k => f a ;; k) (ret tt) l.

(** A function with one deferred call [d] (one that does not recover) around
    its body: [d] runs when the body returns and when it panics, and a panic
    of [d] replaces the one in flight. *)
Definition defer_call {A} (d : M unit) (body : M A) : M A :=
  fun w =>
    match body w with
    | (r, w1) =>
        match d w1 with
        | (Ok _, w2) => (r, w2)
        | (Panic e, w2) => (Panic e, w2)
        end
    end.

(** A function whose first deferred call is
    [func() { if e := recover(); e != nil { h(e) } }()]: when the body returns,
    [recover] gives nil and nothing happens; when it panics with [e], the panic
    is stopped, [h e] runs, and the function returns normally unless [h e]
    itself panics. *)
Definition defer_recover (h : PanicVal -> M unit) (body : M unit) : M unit :=
  fun w =>
    match body w with
    | (Ok _, w1) => (Ok tt, w1)
    | (Panic e, w1) => h e w1
    end.

Definition observe (o : Obs) : M unit :=
  modify (fun w => set_trace (trace w ++ [o]) w).

(** [log.Println] *)
Definition log_Println (l : LogLine) : M unit := observe (Logged l).

(** [go f()] *)
Definition go (t : Task) : M unit :=
  modify (fun w => set_goroutines (goroutines w ++ [t]) w).

(** ** Channels and wait groups (Go's run time and package sync) *)

(** [make(chan bool)] *)
Definition make_chan_bool : M loc :=
  fun w =>
    let c := fresh (sigChans w) in
    (Ok c, set_sigChans ({[c]} ∪ sigChans w) w).

(** [make(chan Event)] *)
Definition make_chan_Event : M loc :=
  fun w =>
    let c := fresh (dom (eventChans w)) in
    (Ok c, set_eventChans (<[c := mkEventChan [] false]> (eventChans w)) w).

(** [close(c)]: panics on a closed channel; the senders still waiting panic in
    their own goroutines, so nothing they offered is delivered. *)
Definition close (c : loc) : M unit :=
  fun w =>
    match eventChans w !! c with
    | None => (Panic CloseOfNilChannel, w)
    | Some ch =>
        if closed ch then (Panic CloseOfClosedChannel, w)
        else (Ok tt, set_trace (trace w ++ [ChanClose c])
                       (set_eventChans (<[c := mkEventChan [] true]> (eventChans w)) w))
    end.

(** What [event, ok := <-c] finds: an event ([ok] true), a closed channel
    ([ok] false), or nothing yet, in which case the receiver waits. *)
Inductive Received : Type :=
| RecvEvent (event : Event)
| RecvClosed
| RecvBlocked.

Definition receive (c : loc) : M Received :=
  fun w =>
    match eventChans w !! c with
    | None => (Ok RecvBlocked, w)
    | Some ch =>
        if closed ch then (Ok RecvClosed, w)
        else match sendq ch with
             | [] => (Ok RecvBlocked, w)
             | e :: q =>
                 (Ok (RecvEvent e),
                  set_eventChans (<[c := mkEventChan q false]> (eventChans w)) w)
             end
    end.

(** [&sync.WaitGroup{}] *)
Definition new_WaitGroup : M loc :=
  fun w =>
    let a := fresh (dom (waitGroups w)) in
    (Ok a, set_waitGroups (<[a := 0%Z]> (waitGroups w)) w).

(** [sync.WaitGroup.Add]: adds [delta] to the counter, an [int32], then
    panics if the counter has become negative (the counter keeps the new
    value). *)
Definition WaitGroup_Add (wg : option loc) (delta : Z) : M unit :=
  fun w =>
    match wg with
    | None => (Panic NilDereference, w)
    | Some a =>
        match waitGroups w !! a with
        | None => (Panic NilDereference, w)
        | Some v =>
            let v' := int32 (v + delta) in
            let w1 := set_trace (trace w ++ [WgAdd a delta])
                        (set_waitGroups (<[a := v']> (waitGroups w)) w) in
            if (v' <? 0)%Z then (Panic NegativeWaitGroupCounter, w1)
            else (Ok tt, w1)
        end
    end.

(** [sync.WaitGroup.Done] is [Add(-1)]. *)
Definition WaitGroup_Done (wg : option loc) : M unit := WaitGroup_Add wg (-1).

(** ** The methods of [BeeInterface] that [bees.go] calls *)

(** A method call on the interface value at [bee]; a nil interface panics. *)
Definition withWorker {A} (bee : loc) (f : Worker -> M A) : M A :=
  fun w =>
    match workers w !! bee with
    | None => (Panic NilDereference, w)
    | Some wk => f wk w
    end.

Definition updateBase (bee : loc) (f : Bee -> Bee) : M unit :=
  withWorker bee (fun wk =>
    modify (fun w =>
      set_workers (<[bee := mkWorker (f (base wk)) (runScript wk) (runCalls wk)]> (workers w)) w)).

(** Modelled from the spec: the methods of [Bee] are not in src/; section 4.1
    names them as the worker contract and section 3 gives the attributes
    they read and write.  [Name()] is [identifier()]: it reads [BeeName]. *)
Definition BeeInterface_Name (bee : loc) : M string :=
  withWorker bee (fun wk => ret (BeeName (base wk))).

(** Modelled from the spec: [Description()] of [Bee] is not in src/; it is
    [description()] of section 4.1 and reads [BeeDescription]. *)
Definition BeeInterface_Description (bee : loc) : M string :=
  withWorker bee (fun wk => ret (BeeDescription (base wk))).

(** Modelled from the spec: [WaitGroup()] of [Bee] is not in src/; it is
    [completionHandle()] of section 4.1 and returns the worker's completion
    handle, the field [waitGroup]. *)
Definition BeeInterface_WaitGroup (bee : loc) : M (option loc) :=
  withWorker bee (fun wk => ret (waitGroup (base wk))).

(** Modelled from the spec: [SetSigChan(c)] of [Bee] is not in src/; it is
    [setStopSignal(handle)] of section 4.1 and stores the stop signal in
    [SigChan]. *)
Definition BeeInterface_SetSigChan (bee : loc) (c : loc) : M unit :=
  withWorker bee (fun _ =>
    observe (CallSetSigChan bee c) ;;
    updateBase bee (fun b =>
      mkBee (BeeName b) (BeeNamespace b) (BeeDescription b) (BeeOptions b)
            (lastEvent b) (lastAction b) (Running b) (Some c) (waitGroup b))).

(** Modelled from the spec: [LogEvent()] of [Bee] is not in src/; it is
    [logEvent()] of section 4.1 and records the time of the event in
    [lastEvent] (section 4.4, step 2). *)
Definition BeeInterface_LogEvent (bee : loc) : M unit :=
  withWorker bee (fun _ =>
    observe (CallLogEvent bee) ;;
    t <- gets now ;;
    updateBase bee (fun b =>
      mkBee (BeeName b) (BeeNamespace b) (BeeDescription b) (BeeOptions b)
            t (lastAction b) (Running b) (SigChan b) (waitGroup b))).

Definition setRunning (r : bool) (b : Bee) : Bee :=
  mkBee (BeeName b) (BeeNamespace b) (BeeDescription b) (BeeOptions b)
        (lastEvent b) (lastAction b) r (SigChan b) (waitGroup b).

(** Modelled from the spec: [Start()] of [Bee] is not in src/; it is [start()]
    of section 4.1 and raises the running flag. *)
Definition BeeInterface_Start (bee : loc) : M unit :=
  withWorker bee (fun _ =>
    observe (CallStart bee) ;; updateBase bee (setRunning true)).

(** Modelled from the spec: [Stop()] of [Bee] is not in src/; it is [stop()]
    of section 4.1, after which the worker reports that it is not running
    (section 8). *)
Definition BeeInterface_Stop (bee : loc) : M unit :=
  withWorker bee (fun _ =>
    observe (CallStop bee) ;; updateBase bee (setRunning false)).

(** Modelled from the spec: [Run(eventChannel)] is implemented by each
    concrete bee, outside src/; it is [run(eventsOut)] of section 4.1, which
    returns when the worker is told to stop or fails unexpectedly (section 7).
    The call is counted and its outcome is the one the implementation's
    script gives for this call. *)
Definition BeeInterface_Run (bee : loc) (eventChannel : loc) : M unit :=
  withWorker bee (fun wk =>
    observe (CallRun bee eventChannel) ;;
    modify (fun w =>
      set_workers (<[bee := mkWorker (base wk) (runScript wk) (S (runCalls wk))]> (workers w)) w) ;;
    match runScript wk (runCalls wk) with
    | None => ret tt
    | Some e => panic e
    end).

(** ** Code outside [bees.go] *)

(** [GetEventDescriptor(&event).Description], [execChains(&event)] and the
    method [New] of the factory at an address are code of other files and of
    the bee implementations: any computation. *)
Variable GetEventDescriptor_Description : Event -> M string.
Variable execChains : Event -> M unit.
Variable BeeFactoryInterface_New :
  loc -> string -> string -> list BeeOption -> M loc.

(** Modelled from the spec: [GetFactory], which [NewBeeInstance] calls, is not
    in src/; section 4.2 gives it as [factoryLookup(classId)], returning the
    factory registered for the class or nothing, which is also what
    [GetBeeFactory] of this file does on the same map. *)
Definition GetFactory (identifier : string) : M (option loc) :=
  gets (fun w => factories w !! identifier).

(** ** The functions of [bees.go] *)

(** A [*BeeInterface] is identified with the worker it points to; [None] is
    the nil pointer, and [*bee] on it panics. *)
Definition deref (bee : option loc) : M loc :=
  match bee with
  | Some b => ret b
  | None => panic NilDereference
  end.

(** [func RegisterBee(bee BeeInterface)] *)
Definition RegisterBee (bee : loc) : M unit :=
  name <- BeeInterface_Name bee ;;
  description <- BeeInterface_Description bee ;;
  log_Println (LogWorkerReady name description) ;;
  key <- BeeInterface_Name bee ;;
  modify (fun w => set_bees (<[key := bee]> (bees w)) w).

(** [func GetBee(identifier string) *BeeInterface] *)
Definition GetBee (identifier : string) : M (option loc) :=
  fun w =>
    match bees w !! identifier with
    | Some bee => (Ok (Some bee), w)
    | None => (Ok None, w)
    end.

(** [func GetBees() []*BeeInterface]; Go leaves the order of a range over a
    map open, here it is the order of [map_to_list]. *)
Definition GetBees : M (list loc) :=
  fun w =>
    (Ok (fold_left (fun r kv => r ++ [snd kv]) (map_to_list (bees w)) []), w).

(** [func GetBeeFactory(identifier string) *BeeFactoryInterface] *)
Definition GetBeeFactory (identifier : string) : M (option loc) :=
  fun w =>
    match factories w !! identifier with
    | Some f => (Ok (Some f), w)
    | None => (Ok None, w)
    end.

(** [func GetBeeFactories() []*BeeFactoryInterface] *)
Definition GetBeeFactories : M (list loc) :=
  fun w =>
    (Ok (fold_left (fun r kv => r ++ [snd kv]) (map_to_list (factories w)) []), w).

(** The function literal that [handleEvents] starts for each event. *)
Definition chainTask (event : Event) : M unit :=
  defer_recover (fun e => log_Println (LogFatalChain e)) (execChains event).

(** How one pass through the body of [for { ... }] in [handleEvents] ends. *)
Inductive LoopCtl : Type :=
| LoopNext
| LoopBreak
| LoopWait.

Definition handleEvents_body : M LoopCtl :=
  c <- gets eventsIn ;;
  r <- receive c ;;
  match r with
  | RecvBlocked => ret LoopWait
  | RecvClosed =>
      log_Println LogBlank ;;
      log_Println LogStoppedHandler ;;
      ret LoopBreak
  | RecvEvent event =>
      bee <- GetBee (EventBee event) ;;
      b <- deref bee ;;
      BeeInterface_LogEvent b ;;
      log_Println LogBlank ;;
      description <- GetEventDescriptor_Description event ;;
      log_Println (LogEventReceived (EventBee event) (EventName event) description) ;;
      forM_ (EventOptions event) (fun v => log_Println (LogOptions v)) ;;
      go (TaskChain event) ;;
      ret LoopNext
  end.

(** Where the dispatcher is after some passes of its loop: it has left the
    loop and returned, it waits for the next event, or it is still going. *)
Inductive Dispatcher : Type :=
| Returned
| Waiting
| Looping.

(** [func handleEvents()], run for at most [passes] passes of its loop. *)
Fixpoint handleEvents (passes : nat) : M Dispatcher :=
  match passes with
  | O => ret Looping
  | S n =>
      ctl <- handleEvents_body ;;
      match ctl with
      | LoopNext => handleEvents n
      | LoopBreak => ret Returned
      | LoopWait => ret Waiting
      end
  end.

(** [func startBee(bee *BeeInterface, fatals int)].  The two deferred calls
    run last-in first-out: [Done], whose receiver [WaitGroup()] is evaluated at
    the [defer] statement, then the recovering function literal. *)
Equations? startBee (bee : loc) (fatals : Z) : M unit
  by wf (Z.to_nat (3 - fatals)) lt :=
startBee bee fatals with Z_ge_dec fatals 3 := {
  | left _ =>
      name <- BeeInterface_Name bee ;;
      log_Println (LogTerminating name fatals)
  | right _ =>
      defer_recover
        (fun e =>
           log_Println (LogFatalBee e fatals) ;;
           startBee bee (fatals + 1))
        (wg <- BeeInterface_WaitGroup bee ;;
         defer_call (WaitGroup_Done wg)
           (c <- gets eventsIn ;;
            BeeInterface_Run bee c)) }.
Proof. lia. Qed.

(** [func NewBeeInstance(bee BeeInstance) *BeeInterface] *)
Definition NewBeeInstance (bee : BeeInstance) : M loc :=
  factory <- GetFactory (InstanceClass bee) ;;
  match factory with
  | None =>
      panic (PanicMsg (String.append "Unknown bee-class in config file: "
                                     (InstanceClass bee)))
  | Some f =>
      mod_ <- BeeFactoryInterface_New f (InstanceName bee)
                (InstanceDescription bee) (InstanceOptions bee) ;;
      RegisterBee mod_ ;;
      ret mod_
  end.

(** [func DeleteBee(bee *BeeInterface)] *)
Definition DeleteBee (bee : loc) : M unit :=
  BeeInterface_Stop bee ;;
  name <- BeeInterface_Name bee ;;
  modify (fun w => set_bees (delete name (bees w)) w).

(** [func StartBee(bee BeeInstance) *BeeInterface] *)
Definition StartBee (bee : BeeInstance) : M loc :=
  b <- NewBeeInstance bee ;;
  BeeInterface_Start b ;;
  go (TaskStartBee b 0) ;;
  ret b.

(** [func StartBees(beeList []BeeInstance)] *)
Definition StartBees (beeList : list BeeInstance) : M unit :=
  c <- make_chan_Event ;;
  modify (set_eventsIn c) ;;
  go TaskHandleEvents ;;
  forM_ beeList (fun bee => StartBee bee ;; ret tt).

(** [func StopBees()], with the order in which [range bees] visits the map
    given: Go leaves it open. *)
Definition StopBees_range (order : list (string * loc)) : M unit :=
  forM_ order (fun kv =>
    name <- BeeInterface_Name (snd kv) ;;
    log_Println (LogStopping name) ;;
    BeeInterface_Stop (snd kv)) ;;
  c <- gets eventsIn ;;
  close c ;;
  modify (set_bees ∅).

Definition StopBees : M unit :=
  fun w => StopBees_range (map_to_list (bees w)) w.

(** [func RestartBee(bee *BeeInterface)] *)
Definition RestartBee (bee : loc) : M unit :=
  BeeInterface_Stop bee ;;
  c <- make_chan_bool ;;
  BeeInterface_SetSigChan bee c ;;
  wg <- BeeInterface_WaitGroup bee ;;
  WaitGroup_Add wg 1 ;;
  BeeInterface_Start bee ;;
  go (TaskStartBee bee 0).

(** [func RestartBees(bees []BeeInstance)] *)
Definition RestartBees (beeList : list BeeInstance) : M unit :=
  StopBees ;;
  StartBees beeList.

(** [func NewBee(name, factoryName, description string, options []BeeOption) Bee] *)
Definition NewBee (name factoryName description : string)
    (options : list BeeOption) : M Bee :=
  sig <- make_chan_bool ;;
  wg <- new_WaitGroup ;;
  let b := mkBee name factoryName description options 0 0 false
                 (Some sig) (Some wg) in
  WaitGroup_Add (waitGroup b) 1 ;;
  ret b.

(** [func Chains() []Chain] *)
Definition Chains : M (list Chain) := gets chains.

(** [func SetChains(cs []Chain)] *)
Definition SetChains (cs : list Chain) : M unit := modify (set_chains cs).

(** What a task started by [go] does when it runs. *)
Definition runTask (passes : nat) (t : Task) : M unit :=
  match t with
  | TaskStartBee bee fatals => startBee bee fatals
  | TaskChain event => chainTask event
  | TaskHandleEvents => handleEvents passes ;; ret tt
  end.

(** ** A bee implementation, for the scenarios below *)

(** Modelled from the spec: the concrete bees and their factories are not in
    src/ (section 6, factory boundary).  What a constructor of a concrete bee
    does with the [Bee] it embeds: it puts the new bee on the heap. *)
Definition allocWorker (wk : Worker) : M loc :=
  fun w =>
    let a := fresh (dom (workers w)) in
    (Ok a, set_workers (<[a := wk]> (workers w)) w).

(** Modelled from the spec: a factory's [New(name, description, options)]
    (section 6), for a factory whose bees embed [NewBee(name, factoryName,
    description, options)] and whose run loop follows [script]. *)
Definition scriptedNew (factoryName : string) (script : nat -> option PanicVal)
    (f : loc) (name description : string) (options : list BeeOption) : M loc :=
  b <- NewBee name factoryName description options ;;
  allocWorker (mkWorker b script 0).

(** [NewBee], a bee built around it, and its supervised run task. *)
Definition superviseNewBee (name factoryName description : string)
    (options : list BeeOption) (script : nat -> option PanicVal)
    : M (loc * Bee) :=
  b <- NewBee name factoryName description options ;;
  bee <- allocWorker (mkWorker b script 0) ;;
  startBee bee 0 ;;
  ret (bee, b).

(** ** Reading traces and worlds *)

Definition isRun (bee : loc) (o : Obs) : bool :=
  match o with
  | CallRun b _ => Nat.eqb b bee
  | _ => false
  end.

Definition isAdd (wg : loc) (delta : Z) (o : Obs) : bool :=
  match o with
  | WgAdd a d => Nat.eqb a wg && Z.eqb d delta
  | _ => false
  end.

Fixpoint count (p : Obs -> bool) (t : list Obs) : nat :=
  match t with
  | [] => 0
  | o :: t' => (if p o then 1 else 0) + count p t'
  end.

(** The calls of [Run] on [bee], the increments and the decrements of the
    wait group [wg] in a trace. *)
Definition runsIn (bee : loc) (t : list Obs) : nat := count (isRun bee) t.
Definition addsIn (wg : loc) (t : list Obs) : nat := count (isAdd wg 1) t.
Definition donesIn (wg : loc) (t : list Obs) : nat := count (isAdd wg (-1)) t.

(** The lines logged in a trace, in order. *)
Fixpoint logged (t : list Obs) : list LogLine :=
  match t with
  | [] => []
  | Logged l :: t' => l :: logged t'
  | _ :: t' => logged t'
  end.

(** A computation leaves a component [f] of the world as it was, however it
    ends. *)
Definition keeps {A B} (f : World -> B) (c : M A) : Prop :=
  forall w, f (snd (c w)) = f w.

(** The factory registry and the chain configuration read the same in [w']
    as in [w]. *)
Definition sameConfiguration (w w' : World) : Prop :=
  (forall identifier,
     fst (GetBeeFactory identifier w') = fst (GetBeeFactory identifier w)) /\
  fst (GetBeeFactories w') = fst (GetBeeFactories w) /\
  fst (Chains w') = fst (Chains w).

(** The identifier under which the worker at [bee] registers. *)
Definition nameOf (w : World) (bee : loc) : option string :=
  match workers w !! bee with
  | Some wk => Some (BeeName (base wk))
  | None => None
  end.

(** The worker at [bee] after [n] more calls of [Run]. *)
Definition afterRuns (n : nat) (wk : Worker) : Worker :=
  mkWorker (base wk) (runScript wk) (n + runCalls wk).

(** The "Fatal bee event" lines of consecutive failed attempts, the first
    one logged with [fatals]. *)
Fixpoint fatalLines (es : list PanicVal) (fatals : Z) : list LogLine :=
  match es with
  | [] => []
  | e :: es' => LogFatalBee e fatals :: fatalLines es' (fatals + 1)
  end.

(** The worker's completion handle is a fresh one in [w'], compared with [w]:
    a wait group that did not exist in [w] and that stands at one, as [NewBee]
    leaves it. *)
Definition freshCompletionHandle (w w' : World) (bee : loc) : Prop :=
  exists wk h,
    workers w' !! bee = Some wk /\ waitGroup (base wk) = Some h /\
    waitGroups w !! h = None /\ waitGroups w' !! h = Some 1%Z.

(** [RestartBee] as section 4.3 words it: it stops the worker first, issues
    it a fresh stop signal and a fresh completion handle, starts it, and
    relaunches supervision with a count of zero. *)
Definition restartsAsSpecified (w : World) (bee : loc) : Prop :=
  exists w' c t wk,
    RestartBee bee w = (Ok tt, w') /\
    trace w' = trace w ++ CallStop bee :: t /\
    In (CallStart bee) t /\
    (c ∉ sigChans w) /\
    workers w' !! bee = Some wk /\
    SigChan (base wk) = Some c /\
    freshCompletionHandle w w' bee /\
    goroutines w' = goroutines w ++ [TaskStartBee bee 0].

End Beehive.

Notation "x <- c1 ;; c2" := (bind c1 (fun x => c2))
  (at level 100, c1 at next level, c2 at level 200, right associativity) : go_scope.
Notation "c1 ;; c2" := (bind c1 (fun _ => c2))
  (at level 100, c2 at level 200, right associativity) : go_scope.

(** ** Scenarios *)

Module Scenario.

Open Scope string_scope.

(** Placeholders, bee options and chains are strings here. *)
Abbreviation World := (@World string string string).
Abbreviation M := (@M string string string).
Abbreviation Event := (@Event string).
Abbreviation BeeInstance := (@BeeInstance string).
Abbreviation Worker := (@Worker string).

(** A run loop that panics every time it is called. *)
Definition alwaysPanics (n : nat) : option PanicVal := Some (PanicMsg "boom").

(** A run loop that returns when it is told to stop. *)
Definition wellBehaved (n : nat) : option PanicVal := None.

(** Two factories: class "exec" at address 7, whose bees are well behaved,
    and class "flaky" at address 8, whose bees panic. *)
Definition factoryNew (f : loc) : string -> string -> list string -> M loc :=
  match f with
  | 7 => scriptedNew "exec" wellBehaved f
  | _ => scriptedNew "flaky" alwaysPanics f
  end.

(** The package after the factories have registered: an open event channel,
    no bees. *)
Definition withFactories : World :=
  mkWorld 0 ∅ {["exec" := 7; "flaky" := 8]} ["chain1"] ∅ ∅
          {[0 := mkEventChan [] false]} ∅ [] [] 0.

Definition light1 : BeeInstance := mkBeeInstance "light1" "exec" "a light" [].
Definition flaky1 : BeeInstance := mkBeeInstance "flaky1" "flaky" "a flaky bee" [].
Definition ghost : BeeInstance :=
  mkBeeInstance "ghost" "nosuchclass" "nobody makes these" [].

(** The world after [NewBeeInstance(light1)] and [NewBeeInstance(flaky1)]:
    light1 is the worker at address 0, flaky1 the one at address 1. *)
Definition withBees : World :=
  snd ((NewBeeInstance factoryNew light1 ;; NewBeeInstance factoryNew flaky1)%go
         withFactories).

Definition light1Worker : Worker :=
  mkWorker (mkBee "light1" "exec" "a light" [] 0 0 false (Some 0) (Some 0))
           wellBehaved 0.

Definition flaky1Worker : Worker :=
  mkWorker (mkBee "flaky1" "flaky" "a flaky bee" [] 0 0 false (Some 1) (Some 1))
           alwaysPanics 0.

(** The two workers constructed but not registered. *)
Definition unregistered : World := set_bees ∅ withBees.

(** A second worker that calls itself light1, at address 2, constructed but
    not registered. *)
Definition withTwin : World :=
  snd (factoryNew 7 "light1" "another light" [] withBees).

Definition twinWorker : Worker :=
  mkWorker (mkBee "light1" "exec" "another light" [] 0 0 false (Some 2) (Some 2))
           wellBehaved 0.

(** Two events waiting on the channel: one that names a bee nobody
    registered, then one of light1. *)
Definition strayEvent : Event := mkEvent "ghost" "hello" [].
Definition light1On : Event := mkEvent "light1" "on" [].

Definition withStrayEvent : World :=
  set_eventChans {[0 := mkEventChan [strayEvent; light1On] false]} withBees.

(** Only the event of light1 waiting. *)
Definition withLight1On : World :=
  set_eventChans {[0 := mkEventChan [light1On] false]} withBees.

(** The world after the supervised run task of flaky1 has given up. *)
Definition afterGivingUp : World := snd (startBee 1 0 withBees).

Definition noDescription : Event -> M string := fun _ => ret EmptyString.

(** A chain executor that panics on every event. *)
Definition failingChains : Event -> M unit :=
  fun _ => panic (PanicMsg "chain failed").

(** Two events of registered bees waiting, the second with an option. *)
Definition flaky1Hello : Event := mkEvent "flaky1" "hello" ["loud"].

Definition withTwoEvents : World :=
  set_eventChans {[0 := mkEventChan [light1On; flaky1Hello] false]} withBees.

(** An event descriptor lookup that panics on every event. *)
Definition panickingDescription : Event -> M string :=
  fun _ => panic (PanicMsg "no descriptor").

(** flaky1 as its supervised run task leaves it. *)
Definition abandonedWorker : Worker :=
  mkWorker (mkBee "flaky1" "flaky" "a flaky bee" [] 0 0 false (Some 1) (Some 1))
           alwaysPanics 3.

End Scenario.

(** * Properties *)

Section Properties.

Context {Placeholder BeeOption Chain : Type}.

#[local] Abbreviation World := (@World Placeholder BeeOption Chain).
#[local] Abbreviation M := (@M Placeholder BeeOption Chain).
#[local] Abbreviation Event := (@Event Placeholder).
#[local] Abbreviation Worker := (@Worker BeeOption).
#[local] Abbreviation Obs := (@Obs Placeholder).

Variable GetEventDescriptor_Description : Event -> M string.
Variable execChains : Event -> M unit.
Variable BeeFactoryInterface_New :
  loc -> string -> string -> list BeeOption -> M loc.

Local Open Scope go_scope.

(** ** Frame lemmas: what a computation [keeps] *)

Lemma keeps_ret {A B} (f : World -> B) (a : A) : keeps f (ret a).
Proof. intros w. reflexivity. Qed.

Lemma keeps_panic {A B} (f : World -> B) (e : PanicVal) : keeps f (@panic _ _ _ A e).
Proof. intros w. reflexivity. Qed.

Lemma keeps_gets {A B} (f : World -> B) (g : World -> A) : keeps f (gets g).
Proof. intros w. reflexivity. Qed.

Lemma keeps_modify {B} (f : World -> B) (g : World -> World) :
  (forall w, f (g w) = f w) -> keeps f (modify g).
Proof. intros H w. apply H. Qed.

Lemma keeps_bind {A A' B} (f : World -> B) (c : M A) (k : A -> M A') :
  keeps f c -> (forall a, keeps f (k a)) -> keeps f (bind c k).
Proof.
  intros Hc Hk w. unfold bind. specialize (Hc w).
  destruct (c w) as [[a|e] w1]; simpl in *.
  - rewrite Hk. exact Hc.
  - exact Hc.
Qed.

Lemma keeps_forM_ {A B} (f : World -> B) (l : list A) (body : A -> M unit) :
  (forall a, keeps f (body a)) -> keeps f (forM_ l body).
Proof.
  intros Hb. induction l as [|a l IH]; simpl.
  - apply keeps_ret.
  - apply keeps_bind; [apply Hb | intros _; exact IH].
Qed.

Lemma keeps_defer_call {A B} (f : World -> B) (d : M unit) (body : M A) :
  keeps f d -> keeps f body -> keeps f (defer_call d body).
Proof.
  intros Hd Hb w. unfold defer_call. specialize (Hb w).
  destruct (body w) as [r w1]. specialize (Hd w1).
  destruct (d w1) as [[[]|e] w2]; simpl in *; congruence.
Qed.

Lemma keeps_defer_recover {B} (f : World -> B) (h : PanicVal -> M unit)
    (body : M unit) :
  (forall e, keeps f (h e)) -> keeps f body -> keeps f (defer_recover h body).
Proof.
  intros Hh Hb w. unfold defer_recover. specialize (Hb w).
  destruct (body w) as [[[]|e] w1]; simpl in *; [exact Hb|].
  rewrite Hh. exact Hb.
Qed.

(** A computation built from the primitives without recursion is settled by
    unfolding them and following each branch. *)
Ltac unfold_prims :=
  cbv [RegisterBee GetBee GetBees GetBeeFactory GetBeeFactories GetFactory
       DeleteBee Chains SetChains deref
       BeeInterface_Name BeeInterface_Description BeeInterface_WaitGroup
       BeeInterface_SetSigChan BeeInterface_LogEvent BeeInterface_Start
       BeeInterface_Stop BeeInterface_Run updateBase withWorker
       WaitGroup_Done WaitGroup_Add new_WaitGroup make_chan_bool
       make_chan_Event close receive go log_Println observe
       modify gets panic bind ret].

Ltac keeps_leaf :=
  let w := fresh "w" in
  intros w; unfold_prims; repeat case_match; reflexivity.

Ltac keeps_tac :=
  repeat first
    [ apply keeps_bind; [| intros ?]
    | apply keeps_forM_; intros ?
    | apply keeps_defer_call
    | apply keeps_defer_recover; [intros ? |]
    | progress keeps_leaf ].

(** ** Lookups *)

Lemma range_values {K V} (l : list (K * V)) (acc : list V) :
  fold_left (fun r kv => r ++ [snd kv]) l acc = acc ++ map snd l.
Proof.
  revert acc. induction l as [|kv l IH]; intros acc; simpl.
  - by rewrite app_nil_r.
  - rewrite IH, <- app_assoc. reflexivity.
Qed.

Lemma GetBees_values (w : World) :
  GetBees w = (Ok (map snd (map_to_list (bees w))), w).
Proof. unfold GetBees. by rewrite range_values. Qed.

Lemma GetBees_length (w : World) r w' :
  GetBees w = (Ok r, w') -> length r = size (bees w).
Proof.
  rewrite GetBees_values. intros [= <- <-].
  by rewrite length_map, length_map_to_list.
Qed.

(** C9: [GetBee] and [GetBeeFactory] return what the map holds for the
    identifier: the stored instance when there is one, nil (no instance) when
    there is none.  Neither panics and neither changes the world. *)
Theorem lookup_miss_is_not_an_error (identifier : string) (w : World) :
  GetBee identifier w = (Ok (bees w !! identifier), w) /\
  GetBeeFactory identifier w = (Ok (factories w !! identifier), w).
Proof.
  unfold GetBee, GetBeeFactory.
  destruct (bees w !! identifier), (factories w !! identifier); auto.
Qed.

(** ** The per-event task *)

Lemma chainTask_outcome (event : Event) (w : World) :
  chainTask execChains event w =
    match execChains event w with
    | (Ok _, w1) => (Ok tt, w1)
    | (Panic e, w1) =>
        (Ok tt, set_trace (trace w1 ++ [Logged (LogFatalChain e)]) w1)
    end.
Proof.
  unfold chainTask, defer_recover.
  destruct (execChains event w) as [[[]|e] w1]; reflexivity.
Qed.

Lemma chainTasks_return (events : list Event) (w : World) :
  exists w', forM_ events (chainTask execChains) w = (Ok tt, w').
Proof.
  revert w. induction events as [|event events IH]; intros w; simpl.
  - by eexists.
  - unfold bind. rewrite chainTask_outcome.
    destruct (execChains event w) as [[[]|e] w1]; apply IH.
Qed.

(** C8: whatever the chain executor does with an event, the task started for
    that event returns normally: a panic of the executor is stopped at the
    task's deferred function and logged there as "Fatal chain event", so
    nothing reaches the dispatcher (which only starts the task) or the tasks
    of other events, each of which returns as well. *)
Theorem chain_failure_is_caught_and_logged (event : Event) (w : World) :
  (exists w', chainTask execChains event w = (Ok tt, w') /\
     match execChains event w with
     | (Ok _, w1) => w' = w1
     | (Panic e, w1) =>
         w' = set_trace (trace w1 ++ [Logged (LogFatalChain e)]) w1
     end) /\
  (forall events, exists w', forM_ events (chainTask execChains) w = (Ok tt, w')).
Proof.
  split.
  - rewrite chainTask_outcome.
    destruct (execChains event w) as [[[]|e] w1]; eexists; split; reflexivity.
  - intros events. apply chainTasks_return.
Qed.

(** ** [StopBees] *)

Lemma StopBees_range_keeps_factories (order : list (string * loc)) :
  keeps factories (StopBees_range order : M unit).
Proof. unfold StopBees_range. keeps_tac. Qed.

Lemma StopBees_range_keeps_chains (order : list (string * loc)) :
  keeps chains (StopBees_range order : M unit).
Proof. unfold StopBees_range. keeps_tac. Qed.

Lemma sameConfiguration_fields (w w' : World) :
  factories w' = factories w -> chains w' = chains w -> sameConfiguration w w'.
Proof.
  intros Hf Hc. unfold sameConfiguration, GetBeeFactory, GetBeeFactories, Chains, gets.
  simpl. rewrite Hf, Hc. repeat split.
  intros identifier. by destruct (factories w !! identifier).
Qed.

(** C10: [StopBees] leaves the factory registry and the chain configuration
    alone: [GetBeeFactory], [GetBeeFactories] and [Chains] give after it what
    they gave before it, in whatever order the bees are visited and whether
    [StopBees] returns or panics on the way. *)
Theorem StopBees_keeps_factories_and_chains (w : World) :
  sameConfiguration w (snd (StopBees w)) /\
  forall order, sameConfiguration w (snd (StopBees_range order w)).
Proof.
  assert (H : forall order, sameConfiguration w (snd (StopBees_range order w))).
  { intros order. apply sameConfiguration_fields.
    - apply StopBees_range_keeps_factories.
    - apply StopBees_range_keeps_chains. }
  split; [apply H | exact H].
Qed.

(** ** Registration *)

Lemma RegisterBee_live (bee : loc) (w : World) (wk : Worker) :
  workers w !! bee = Some wk ->
  RegisterBee bee w =
    (Ok tt,
     set_bees (<[BeeName (base wk) := bee]> (bees w))
       (set_trace
          (trace w ++ [Logged (LogWorkerReady (BeeName (base wk))
                                              (BeeDescription (base wk)))]) w)).
Proof.
  intros H. unfold_prims. simpl. rewrite !H. reflexivity.
Qed.

Lemma RegisterBee_nil (bee : loc) (w : World) :
  workers w !! bee = None -> RegisterBee bee w = (Panic NilDereference, w).
Proof. intros H. unfold_prims. by rewrite H. Qed.

Lemma register_all_fresh (newBees : list loc) (w : World) :
  NoDup (map (nameOf w) newBees) ->
  Forall (fun bee => is_Some (workers w !! bee)) newBees ->
  (forall bee n, In bee newBees -> nameOf w bee = Some n -> bees w !! n = None) ->
  exists w', forM_ newBees RegisterBee w = (Ok tt, w') /\
             size (bees w') = size (bees w) + length newBees /\
             workers w' = workers w.
Proof.
  revert w. induction newBees as [|bee rest IH]; intros w Hnd Hlive Hfree; simpl.
  - eexists. split; [reflexivity|]. split; [lia | reflexivity].
  - inversion Hnd as [|? ? Hnotin Hnd']; subst.
    inversion Hlive as [|? ? [wk Hwk] Hlive']; subst.
    unfold bind. rewrite (RegisterBee_live _ _ _ Hwk).
    set (w1 := set_bees _ _).
    assert (Hname : forall b, nameOf w1 b = nameOf w b) by reflexivity.
    assert (Hbee : nameOf w bee = Some (BeeName (base wk))).
    { unfold nameOf. by rewrite Hwk. }
    destruct (IH w1) as (w' & Hrun & Hsize & Hworkers).
    + erewrite map_ext; [exact Hnd' | exact Hname].
    + exact Hlive'.
    + intros b n Hin Hn. rewrite Hname in Hn. simpl.
      rewrite lookup_insert_ne.
      * apply (Hfree b n); [by right | exact Hn].
      * intros Heq. subst n. apply Hnotin. rewrite Hbee, <- Hn.
        apply list_elem_of_In. by apply in_map.
    + exists w'. split; [exact Hrun|]. split; [|exact Hworkers].
      rewrite Hsize. simpl. rewrite map_size_insert_None.
      * lia.
      * apply (Hfree bee); [by left | exact Hbee].
Qed.

(** C7: registering workers with pairwise distinct identifiers into an empty
    registry makes [GetBees] return as many workers as were registered; and
    registering a worker whose identifier is taken returns normally, leaves
    the size of [GetBees] as it was and puts the new worker in the place of
    the prior one; all it logs is the readiness line of any registration. *)
Theorem register_counts_and_overwrites :
  (forall (w : World) (newBees : list loc),
     bees w = ∅ ->
     NoDup (map (nameOf w) newBees) ->
     Forall (fun bee => is_Some (workers w !! bee)) newBees ->
     exists w' r,
       forM_ newBees RegisterBee w = (Ok tt, w') /\
       GetBees w' = (Ok r, w') /\ length r = length newBees) /\
  (forall (w : World) (bee prior : loc) (wk : Worker),
     workers w !! bee = Some wk ->
     bees w !! BeeName (base wk) = Some prior ->
     exists w' r r',
       RegisterBee bee w = (Ok tt, w') /\
       GetBees w = (Ok r, w) /\ GetBees w' = (Ok r', w') /\
       length r' = length r /\
       bees w' = <[BeeName (base wk) := bee]> (bees w) /\
       GetBee (BeeName (base wk)) w' = (Ok (Some bee), w') /\
       trace w' = trace w ++ [Logged (LogWorkerReady (BeeName (base wk))
                                                     (BeeDescription (base wk)))]).
Proof.
  split.
  - intros w newBees Hempty Hnd Hlive.
    destruct (register_all_fresh newBees w Hnd Hlive) as (w' & Hrun & Hsize & _).
    { intros b n _ _. by rewrite Hempty, lookup_empty. }
    exists w', (map snd (map_to_list (bees w'))).
    split; [exact Hrun|]. split; [apply GetBees_values|].
    rewrite length_map, length_map_to_list, Hsize, Hempty, map_size_empty. lia.
  - intros w bee prior wk Hwk Hprior.
    eexists _, _, _. split; [apply (RegisterBee_live _ _ _ Hwk)|].
    split; [apply GetBees_values|]. split; [apply GetBees_values|].
    split; [|split; [|split]].
    + rewrite !length_map, !length_map_to_list. simpl.
      apply map_size_insert_Some. by eexists.
    + reflexivity.
    + unfold GetBee. simpl. by rewrite lookup_insert_eq.
    + reflexivity.
Qed.

(** ** Instantiation *)

(** C3: when no factory is registered for the descriptor's class,
    [NewBeeInstance] panics with "Unknown bee-class in config file" and the
    world is exactly as before: no factory was called, no worker exists that
    did not, and the registry has the entries it had.  When a factory is
    registered, the worker it constructs is returned and is registered under
    its name.  The first outcome is a panic and the second a normal return, so
    the two can be told apart. *)
Theorem NewBeeInstance_unknown_class_is_fatal :
  (forall (bee : BeeInstance) (w : World),
     factories w !! InstanceClass bee = None ->
     exists w',
       NewBeeInstance BeeFactoryInterface_New bee w =
         (Panic (PanicMsg (String.append "Unknown bee-class in config file: "
                                         (InstanceClass bee))), w') /\
       w' = w /\ bees w' = bees w /\ workers w' = workers w) /\
  (forall (bee : BeeInstance) (w w1 : World) (f mod_ : loc) (wk : Worker),
     factories w !! InstanceClass bee = Some f ->
     BeeFactoryInterface_New f (InstanceName bee) (InstanceDescription bee)
       (InstanceOptions bee) w = (Ok mod_, w1) ->
     workers w1 !! mod_ = Some wk ->
     exists w2,
       NewBeeInstance BeeFactoryInterface_New bee w = (Ok mod_, w2) /\
       bees w2 = <[BeeName (base wk) := mod_]> (bees w1) /\
       workers w2 = workers w1 /\
       GetBee (BeeName (base wk)) w2 = (Ok (Some mod_), w2)).
Proof.
  split.
  - intros bee w Hnone. exists w.
    unfold NewBeeInstance, GetFactory, gets, bind. rewrite Hnone.
    repeat split.
  - intros bee w w1 f mod_ wk Hf Hnew Hwk.
    unfold NewBeeInstance, GetFactory, gets, bind. rewrite Hf, Hnew.
    rewrite (RegisterBee_live _ _ _ Hwk).
    eexists. split; [reflexivity|]. simpl. repeat split.
    unfold GetBee. simpl. by rewrite lookup_insert_eq.
Qed.

(** ** The dispatcher on a closed channel *)

Lemma handleEvents_closed (passes : nat) (w : World) (ch : EventChan) :
  eventChans w !! eventsIn w = Some ch -> closed ch = true ->
  handleEvents GetEventDescriptor_Description (S passes) w =
    (Ok Returned,
     set_trace (trace w ++ [Logged LogBlank; Logged LogStoppedHandler]) w).
Proof.
  intros Hch Hclosed. simpl. unfold handleEvents_body. unfold_prims.
  rewrite Hch, Hclosed. simpl. by rewrite <- app_assoc.
Qed.

(** ** Stopping all bees *)

(** The body of the loop of [StopBees]. *)
Lemma stop_one_live (kv : string * loc) (w : World) (wk : Worker) :
  workers w !! snd kv = Some wk ->
  (name <- BeeInterface_Name (snd kv) ;;
   log_Println (LogStopping name) ;;
   BeeInterface_Stop (snd kv)) w =
    (Ok tt,
     set_workers
       (<[snd kv := mkWorker (setRunning false (base wk)) (runScript wk) (runCalls wk)]>
          (workers w))
       (set_trace
          (trace w ++ [Logged (LogStopping (BeeName (base wk))); CallStop (snd kv)]) w)).
Proof.
  intros H. unfold_prims. simpl. rewrite !H. simpl. by rewrite <- app_assoc.
Qed.

Lemma stop_one_nil (kv : string * loc) (w : World) :
  workers w !! snd kv = None ->
  (name <- BeeInterface_Name (snd kv) ;;
   log_Println (LogStopping name) ;;
   BeeInterface_Stop (snd kv)) w = (Panic NilDereference, w).
Proof. intros H. unfold_prims. by rewrite H. Qed.

Lemma stop_loop_calls_stop (order : list (string * loc)) (w w1 : World) :
  forM_ order (fun kv =>
    name <- BeeInterface_Name (snd kv) ;;
    log_Println (LogStopping name) ;;
    BeeInterface_Stop (snd kv)) w = (Ok tt, w1) ->
  exists t, trace w1 = trace w ++ t /\
            forall kv, In kv order -> In (CallStop (snd kv)) t.
Proof.
  revert w. induction order as [|kv order IH]; intros w; simpl.
  - intros [= <-]. exists []. split; [by rewrite app_nil_r | intros ? []].
  - unfold bind at 1.
    destruct (workers w !! snd kv) as [wk|] eqn:Hwk.
    + rewrite (stop_one_live _ _ _ Hwk). intros Hrest.
      destruct (IH _ Hrest) as (t & Ht & Hin). simpl in Ht.
      exists ([Logged (LogStopping (BeeName (base wk))); CallStop (snd kv)] ++ t).
      split; [by rewrite Ht, <- app_assoc|].
      intros kv' [<- | Hkv'].
      * right. by left.
      * right. right. by apply Hin.
    + rewrite (stop_one_nil _ _ Hwk). discriminate.
Qed.

Lemma stop_loop_returns (order : list (string * loc)) (w : World) :
  Forall (fun kv => is_Some (workers w !! snd kv)) order ->
  exists w1, forM_ order (fun kv =>
    name <- BeeInterface_Name (snd kv) ;;
    log_Println (LogStopping name) ;;
    BeeInterface_Stop (snd kv)) w = (Ok tt, w1).
Proof.
  revert w. induction order as [|kv order IH]; intros w Hlive; simpl.
  - by eexists.
  - inversion Hlive as [|? ? [wk Hwk] Hlive']; subst.
    unfold bind at 1. rewrite (stop_one_live _ _ _ Hwk).
    apply IH. eapply Forall_impl; [exact Hlive'|].
    intros kv' [wk' Hwk']. simpl.
    destruct (decide (snd kv = snd kv')) as [->|Hne].
    + rewrite lookup_insert_eq. by eexists.
    + rewrite lookup_insert_ne by done. by eexists.
Qed.

Lemma stop_loop_keeps_eventsIn (order : list (string * loc)) :
  keeps eventsIn (forM_ order (fun kv =>
    name <- BeeInterface_Name (snd kv) ;;
    log_Println (LogStopping name) ;;
    BeeInterface_Stop (snd kv)) : M unit).
Proof. keeps_tac. Qed.

Lemma stop_loop_keeps_eventChans (order : list (string * loc)) :
  keeps eventChans (forM_ order (fun kv =>
    name <- BeeInterface_Name (snd kv) ;;
    log_Println (LogStopping name) ;;
    BeeInterface_Stop (snd kv)) : M unit).
Proof. keeps_tac. Qed.

(** When every registered worker is a live object and the event channel is
    open, [StopBees] returns. *)
Lemma StopBees_range_returns (order : list (string * loc)) (w : World) (ch : EventChan) :
  Forall (fun kv => is_Some (workers w !! snd kv)) order ->
  eventChans w !! eventsIn w = Some ch -> closed ch = false ->
  exists w', StopBees_range order w = (Ok tt, w').
Proof.
  intros Hlive Hch Hopen.
  destruct (stop_loop_returns order w Hlive) as (w1 & Hloop).
  pose proof (stop_loop_keeps_eventsIn order w) as He.
  pose proof (stop_loop_keeps_eventChans order w) as Hc.
  unfold StopBees_range, bind at 1. unfold M in *.
  rewrite Hloop in *. simpl in He, Hc.
  unfold_prims. rewrite He, Hc, Hch, Hopen. by eexists.
Qed.

Lemma StopBees_visits_in_some_order (w : World) :
  StopBees w = StopBees_range (map_to_list (bees w)) w.
Proof. reflexivity. Qed.

(** C6: when [StopBees] has returned, in whatever order it visited the map,
    [Stop] has been called on every worker that was registered when it was
    called, the event channel is closed, so that the dispatcher leaves its
    loop and returns at its next receive, and the registry is empty:
    [GetBees] returns the empty slice and [GetBee] finds nothing for any
    identifier. *)
Theorem StopBees_stops_all_closes_and_clears
    (w w' : World) (order : list (string * loc)) :
  order ≡ₚ map_to_list (bees w) ->
  StopBees_range order w = (Ok tt, w') ->
  (exists t, trace w' = trace w ++ t /\
     forall name bee, bees w !! name = Some bee -> In (CallStop bee) t) /\
  eventsIn w' = eventsIn w /\
  (exists ch, eventChans w' !! eventsIn w' = Some ch /\ closed ch = true) /\
  (forall passes, exists w'',
     handleEvents GetEventDescriptor_Description (S passes) w' = (Ok Returned, w'')) /\
  bees w' = ∅ /\
  GetBees w' = (Ok [], w') /\
  (forall identifier, GetBee identifier w' = (Ok None, w')).
Proof.
  intros Hperm Hrun.
  unfold StopBees_range, bind at 1 in Hrun.
  destruct (forM_ order _ w) as [[[]|e] w1] eqn:Hloop; [|discriminate].
  pose proof (stop_loop_keeps_eventsIn order w) as He.
  pose proof (stop_loop_keeps_eventChans order w) as Hc.
  unfold M in *. rewrite Hloop in He, Hc. simpl in He, Hc.
  destruct (stop_loop_calls_stop _ _ _ Hloop) as (t & Ht & Hstop).
  revert Hrun. unfold_prims.
  destruct (eventChans w1 !! eventsIn w1) as [ch|] eqn:Hch; [|discriminate].
  destruct (closed ch) eqn:Hclosed; [discriminate|].
  intros [= <-]. simpl.
  assert (Hclosed' :
    <[eventsIn w1 := mkEventChan [] true]> (eventChans w1) !! eventsIn w1 =
      Some (mkEventChan (Placeholder := Placeholder) [] true))
    by apply lookup_insert_eq.
  split; [|split; [exact He | split; [|split; [|split; [|split]]]]].
  - exists (t ++ [ChanClose (eventsIn w1)]).
    split; [by rewrite Ht, <- app_assoc|].
    intros name bee Hreg. apply in_or_app. left.
    apply (Hstop (name, bee)). apply list_elem_of_In. rewrite Hperm.
    by apply elem_of_map_to_list.
  - eexists. split; [exact Hclosed' | reflexivity].
  - intros passes. eexists.
    eapply handleEvents_closed; [exact Hclosed' | reflexivity].
  - reflexivity.
  - unfold GetBees. simpl. by rewrite map_to_list_empty.
  - intros identifier. unfold GetBee. simpl. by rewrite lookup_empty.
Qed.

(** ** Arithmetic of the wait group counter *)

Lemma int32_small (z : Z) :
  (-2147483648 <= z < 2147483648)%Z -> int32 z = z.
Proof.
  intros H. unfold int32. rewrite Z.mod_small by lia. lia.
Qed.

(** ** Traces *)

Lemma count_app (p : Obs -> bool) (t1 t2 : list Obs) :
  count p (t1 ++ t2) = count p t1 + count p t2.
Proof. induction t1 as [|o t1 IH]; simpl; [reflexivity | rewrite IH; lia]. Qed.

Lemma logged_app (t1 t2 : list Obs) :
  logged (t1 ++ t2) = logged t1 ++ logged t2.
Proof.
  induction t1 as [|o t1 IH]; simpl; [reflexivity|].
  destruct o; simpl; by rewrite ?IH.
Qed.

Lemma isAdd_same (h : loc) (delta : Z) :
  isAdd h delta (@WgAdd Placeholder h delta) = true.
Proof. unfold isAdd. by rewrite Nat.eqb_refl, Z.eqb_refl. Qed.

Lemma isAdd_other_delta (h : loc) (delta delta' : Z) :
  delta' <> delta -> isAdd h delta (@WgAdd Placeholder h delta') = false.
Proof.
  intros H. unfold isAdd. rewrite Nat.eqb_refl. simpl. by apply Z.eqb_neq.
Qed.

Lemma isRun_same (bee c : loc) : isRun bee (@CallRun Placeholder bee c) = true.
Proof. unfold isRun. apply Nat.eqb_refl. Qed.

(** ** The supervised run task *)

Lemma startBee_gives_up (bee : loc) (fatals : Z) :
  (3 <= fatals)%Z ->
  startBee bee fatals =
    (name <- BeeInterface_Name bee ;; log_Println (LogTerminating name fatals)
     : M unit).
Proof.
  intros H. rewrite startBee_equation_1.
  destruct (Z_ge_dec fatals 3); [reflexivity | lia].
Qed.

Lemma startBee_attempts (bee : loc) (fatals : Z) :
  (fatals < 3)%Z ->
  startBee bee fatals =
    (defer_recover
       (fun e => log_Println (LogFatalBee e fatals) ;; startBee bee (fatals + 1))
       (wg <- BeeInterface_WaitGroup bee ;;
        defer_call (WaitGroup_Done wg)
          (c <- gets eventsIn ;; BeeInterface_Run bee c)) : M unit).
Proof.
  intros H. rewrite startBee_equation_1.
  destruct (Z_ge_dec fatals 3); [lia | reflexivity].
Qed.

(** One attempt: the body of [startBee] under its recovering function.  [Run]
    is called once; [Done] follows when the worker has a completion handle,
    and decrements it. *)
Lemma attempt_live (bee : loc) (w : World) (wk : Worker) :
  workers w !! bee = Some wk ->
  exists r w1 t,
    (wg <- BeeInterface_WaitGroup bee ;;
     defer_call (WaitGroup_Done wg)
       (c <- gets eventsIn ;; BeeInterface_Run bee c)) w = (r, w1) /\
    trace w1 = trace w ++ CallRun bee (eventsIn w) :: t /\
    workers w1 = <[bee := afterRuns 1 wk]> (workers w) /\
    bees w1 = bees w /\ goroutines w1 = goroutines w /\
    (r = Ok tt -> runScript wk (runCalls wk) = None) /\
    match waitGroup (base wk) with
    | Some h =>
        match waitGroups w !! h with
        | Some v => t = [WgAdd h (-1)] /\
                    waitGroups w1 = <[h := int32 (v - 1)]> (waitGroups w)
        | None => t = [] /\ waitGroups w1 = waitGroups w
        end
    | None => t = [] /\ waitGroups w1 = waitGroups w
    end.
Proof.
  intros Hwk. unfold defer_call. unfold_prims. simpl. rewrite !Hwk. simpl.
  destruct (waitGroup (base wk)) as [h|] eqn:Hh;
    [destruct (waitGroups w !! h) as [v|] eqn:Hv|];
    destruct (runScript wk (runCalls wk)) as [e|] eqn:Hs; simpl;
    rewrite ?Hv; simpl;
    try (destruct (int32 (v + -1) <? 0)%Z eqn:Hneg);
    eexists _, _, _; (split; [reflexivity|]); simpl;
    rewrite <- ?app_assoc; simpl;
    repeat split; try reflexivity; try discriminate.
Qed.

Lemma attempt_facts (bee : loc) (w : World) (wk : Worker) :
  workers w !! bee = Some wk ->
  exists r w1 t,
    (wg <- BeeInterface_WaitGroup bee ;;
     defer_call (WaitGroup_Done wg)
       (c <- gets eventsIn ;; BeeInterface_Run bee c)) w = (r, w1) /\
    trace w1 = trace w ++ CallRun bee (eventsIn w) :: t /\
    workers w1 !! bee = Some (afterRuns 1 wk) /\
    bees w1 = bees w /\ goroutines w1 = goroutines w /\
    (r = Ok tt -> runScript wk (runCalls wk) = None) /\
    runsIn bee t = 0 /\ logged t = [] /\
    (forall h, waitGroup (base wk) = Some h -> is_Some (waitGroups w !! h) ->
               donesIn h t = 1 /\ addsIn h t = 0 /\ is_Some (waitGroups w1 !! h)).
Proof.
  intros Hwk.
  destruct (attempt_live bee w wk Hwk)
    as (r & w1 & t & Hrun & Htrace & Hworkers & Hbees & Hgo & Hok & Hwg).
  exists r, w1, t. split; [exact Hrun|]. split; [exact Htrace|].
  split; [by rewrite Hworkers, lookup_insert_eq|].
  split; [exact Hbees|]. split; [exact Hgo|]. split; [exact Hok|].
  destruct (waitGroup (base wk)) as [h|];
    [destruct (waitGroups w !! h) as [v|] eqn:Hv|]; destruct Hwg as [-> Hwgs].
  - split; [reflexivity|]. split; [reflexivity|].
    intros h' [= <-] _. unfold donesIn, addsIn. cbn [count].
    rewrite isAdd_same, isAdd_other_delta by discriminate.
    split; [reflexivity|]. split; [reflexivity|].
    rewrite Hwgs, lookup_insert_eq. by eexists.
  - split; [reflexivity|]. split; [reflexivity|].
    intros h' [= <-] [v Hv']. congruence.
  - split; [reflexivity|]. split; [reflexivity|]. intros h' [=].
Qed.

Lemma afterRuns_zero (wk : Worker) : afterRuns 0 wk = wk.
Proof. by destruct wk. Qed.

Lemma afterRuns_succ (n : nat) (wk : Worker) :
  afterRuns n (afterRuns 1 wk) = afterRuns (S n) wk.
Proof. unfold afterRuns. simpl. f_equal. lia. Qed.

(** The supervised run task of a live worker, started with [fatals] at most
    three: it returns normally, after [n] calls of [Run]. *)
Lemma startBee_live (bee : loc) (k : nat) :
  forall (fatals : Z) (w : World) (wk : Worker),
    Z.of_nat k = (3 - fatals)%Z ->
    workers w !! bee = Some wk ->
    exists w' t n,
      startBee bee fatals w = (Ok tt, w') /\
      trace w' = trace w ++ t /\
      runsIn bee t = n /\ n <= k /\ (1 <= k -> 1 <= n) /\
      workers w' !! bee = Some (afterRuns n wk) /\
      bees w' = bees w /\ goroutines w' = goroutines w /\
      (forall h, waitGroup (base wk) = Some h -> is_Some (waitGroups w !! h) ->
                 donesIn h t = n /\ addsIn h t = 0) /\
      ((forall i, runScript wk i <> None) ->
       n = k /\
       exists es, length es = k /\
         logged t = fatalLines es fatals ++ [LogTerminating (BeeName (base wk)) 3]) /\
      (runScript wk (runCalls wk) <> None -> 2 <= k -> 2 <= n).
Proof.
  induction k as [|k IH]; intros fatals w wk Hk Hwk.
  - assert (fatals = 3%Z) by lia. subst fatals.
    rewrite startBee_gives_up by lia. unfold_prims. rewrite Hwk. simpl.
    eexists _, _, 0. split; [reflexivity|]. simpl.
    split; [reflexivity|]. split; [reflexivity|]. split; [lia|].
    split; [lia|]. split; [by rewrite afterRuns_zero|].
    split; [reflexivity|]. split; [reflexivity|].
    split; [intros; split; reflexivity|].
    split; [|lia].
    intros _. split; [reflexivity|]. by exists [].
  - rewrite startBee_attempts by lia. unfold defer_recover.
    destruct (attempt_facts bee w wk Hwk)
      as (r & w1 & t1 & Hrun & Htrace & Hworkers & Hbees & Hgo & Hok
          & Hruns1 & Hlog1 & Hwg1).
    rewrite Hrun. destruct r as [[]|e].
    + exists w1, (CallRun bee (eventsIn w) :: t1), 1.
      split; [reflexivity|]. split; [exact Htrace|].
      split; [unfold runsIn in *; cbn [count]; rewrite isRun_same, Hruns1; lia|].
      split; [lia|]. split; [lia|]. split; [exact Hworkers|].
      split; [exact Hbees|]. split; [exact Hgo|].
      split; [|split].
      * intros h Hh Hlive. destruct (Hwg1 h Hh Hlive) as (Hd & Ha & _).
        unfold donesIn, addsIn in *. simpl. rewrite Hd, Ha. lia.
      * intros Hall. exfalso. apply (Hall (runCalls wk)). by apply Hok.
      * intros Hfirst. exfalso. apply Hfirst. by apply Hok.
    + unfold bind, log_Println, observe, modify.
      set (w2 := set_trace (trace w1 ++ [Logged (LogFatalBee e fatals)]) w1).
      destruct (IH (fatals + 1)%Z w2 (afterRuns 1 wk)) as
        (w' & t' & n' & Hrec & Htrace' & Hruns' & Hle & Hone & Hworkers'
         & Hbees' & Hgo' & Hwg' & Hall' & _); [lia | exact Hworkers |].
      exists w', (([CallRun bee (eventsIn w)] ++ t1)
                  ++ [Logged (LogFatalBee e fatals)] ++ t'), (S n').
      split; [exact Hrec|].
      split; [rewrite Htrace'; simpl; rewrite Htrace, <- !app_assoc; reflexivity|].
      split; [unfold runsIn in *; rewrite !count_app; cbn [count];
              rewrite isRun_same, Hruns1, Hruns'; cbn [isRun]; lia|].
      split; [lia|]. split; [lia|].
      split; [by rewrite Hworkers', afterRuns_succ|].
      split; [rewrite Hbees'; exact Hbees|].
      split; [rewrite Hgo'; exact Hgo|].
      split; [|split].
      * intros h Hh Hlive. destruct (Hwg1 h Hh Hlive) as (Hd & Ha & Hlive1).
        destruct (Hwg' h Hh Hlive1) as (Hd' & Ha').
        unfold donesIn, addsIn in *. rewrite !count_app. simpl.
        rewrite Hd, Ha, Hd', Ha'. lia.
      * intros Hall. destruct (Hall' Hall) as (-> & es & Hlen & Hlog).
        split; [reflexivity|]. exists (e :: es). split; [simpl; lia|].
        rewrite !logged_app. simpl. rewrite Hlog1, Hlog. reflexivity.
      * intros _ Hk2. assert (1 <= n') by (apply Hone; lia). lia.
Qed.

(** C1: a worker whose [Run] panics at every call is attempted exactly three
    times by [startBee(bee, 0)]: the trace gains three calls of [Run], each
    failure is logged with the count it was attempted under (0, 1, 2), and the
    call with count 3 logs "Terminating evil bee" and makes no attempt.
    [startBee] then returns normally, so the failure reaches no caller; the
    registry is as it was, so the worker is still registered; and no task has
    been started, so nothing will call its [Run] again. *)
Theorem startBee_three_attempts (bee : loc) (w : World) (wk : Worker) :
  workers w !! bee = Some wk ->
  (forall i, runScript wk i <> None) ->
  exists w' t e0 e1 e2,
    startBee bee 0 w = (Ok tt, w') /\
    trace w' = trace w ++ t /\
    runsIn bee t = 3 /\
    logged t = [LogFatalBee e0 0; LogFatalBee e1 1; LogFatalBee e2 2;
                LogTerminating (BeeName (base wk)) 3] /\
    workers w' !! bee = Some (afterRuns 3 wk) /\
    bees w' = bees w /\
    goroutines w' = goroutines w.
Proof.
  intros Hwk Hall.
  destruct (startBee_live bee 3 0%Z w wk) as
    (w' & t & n & Hrun & Htrace & Hruns & _ & _ & Hworkers & Hbees & Hgo
     & _ & Hlog & _); [reflexivity | exact Hwk |].
  destruct (Hlog Hall) as (-> & es & Hlen & Hlines).
  destruct es as [|e0 [|e1 [|e2 [|? ?]]]]; try discriminate.
  exists w', t, e0, e1, e2. simpl in Hlines. auto 10.
Qed.

Lemma NewBee_result (name factoryName description : string)
    (options : list BeeOption) (w : World) :
  NewBee name factoryName description options w =
    (Ok (mkBee name factoryName description options 0 0 false
               (Some (fresh (sigChans w)))
               (Some (fresh (dom (waitGroups w))))),
     set_trace (trace w ++ [WgAdd (fresh (dom (waitGroups w))) 1])
       (set_waitGroups (<[fresh (dom (waitGroups w)) := 1%Z]> (waitGroups w))
          (set_sigChans ({[fresh (sigChans w)]} ∪ sigChans w) w))).
Proof.
  unfold NewBee. unfold_prims. simpl.
  rewrite lookup_insert_eq. change (int32 (0 + 1)) with 1%Z. simpl.
  by rewrite insert_insert_eq.
Qed.

(** C4: [NewBee] increments the wait group it creates once; every attempt of
    the supervised run task, the first and each retry, calls [Run] once and
    [Done] once; so when one of these calls of [Run] has failed, and nothing
    else touches the wait group, it has been decremented more often than
    incremented when supervision ends. *)
Theorem handle_done_once_per_attempt
    (name factoryName description : string) (options : list BeeOption)
    (script : nat -> option PanicVal) (w : World) :
  exists bee b h w' t,
    superviseNewBee name factoryName description options script w
      = (Ok (bee, b), w') /\
    waitGroup b = Some h /\
    waitGroups w !! h = None /\
    trace w' = trace w ++ t /\
    addsIn h t = 1 /\
    1 <= runsIn bee t /\
    donesIn h t = runsIn bee t /\
    ((exists i, i < runsIn bee t /\ script i <> None) ->
     addsIn h t < donesIn h t).
Proof.
  unfold superviseNewBee, bind at 1. rewrite NewBee_result.
  set (h := fresh (dom (waitGroups w))).
  set (b := mkBee _ _ _ _ _ _ _ _ _).
  unfold bind at 1, allocWorker at 1.
  set (w1 := set_trace _ _).
  set (bee := fresh (dom (workers w1))).
  set (w2 := set_workers _ w1).
  destruct (startBee_live bee 3 0%Z w2 (mkWorker b script 0)) as
    (w' & t & n & Hrun & Htrace & Hruns & _ & Hone & _ & _ & _
     & Hwg & _ & Hfirst); [reflexivity | apply lookup_insert_eq |].
  destruct (Hwg h) as (Hd & Ha); [reflexivity | |].
  { simpl. rewrite lookup_insert_eq. by eexists. }
  exists bee, b, h, w', ([WgAdd h 1] ++ t).
  unfold bind. rewrite Hrun. split; [reflexivity|]. split; [reflexivity|].
  split; [apply not_elem_of_dom, is_fresh|].
  split; [rewrite Htrace; simpl; by rewrite <- app_assoc|].
  unfold addsIn, donesIn, runsIn in *. rewrite !count_app. cbn [count].
  rewrite isAdd_same, isAdd_other_delta by discriminate. cbn [isRun].
  rewrite Ha, Hd, Hruns. split; [lia|].
  split; [simpl; apply Hone; lia|]. split; [lia|].
  intros (i & Hi & Hfail). simpl in Hi.
  destruct i as [|i]; [|lia].
  assert (2 <= n) by (apply Hfirst; [exact Hfail | lia]). lia.
Qed.

(** ** Restarting one bee *)

(** C5, amended: for a live worker whose completion handle stands at minus
    one or above (and below the largest [int32], so that [Add(1)] does not
    panic), [RestartBee] calls [Stop], gives the worker a stop signal
    that did not exist before, increments the completion handle the worker
    already has by one (the handle is the same wait group as before, not a
    new one), calls [Start], and starts the supervised run task with a count
    of zero; nothing else is done in between. *)
Theorem RestartBee_rearms_the_same_handle
    (bee : loc) (w : World) (wk : Worker) (h : loc) (v : Z) :
  workers w !! bee = Some wk ->
  waitGroup (base wk) = Some h ->
  waitGroups w !! h = Some v ->
  (-1 <= v < 2147483647)%Z ->
  exists w' c wk',
    RestartBee bee w = (Ok tt, w') /\
    (c ∉ sigChans w) /\
    trace w' = trace w ++ [CallStop bee; CallSetSigChan bee c; WgAdd h 1;
                           CallStart bee] /\
    goroutines w' = goroutines w ++ [TaskStartBee bee 0] /\
    workers w' !! bee = Some wk' /\
    SigChan (base wk') = Some c /\
    Running (base wk') = true /\
    waitGroup (base wk') = Some h /\
    waitGroups w' = <[h := (v + 1)%Z]> (waitGroups w) /\
    ~ freshCompletionHandle w w' bee.
Proof.
  intros Hwk Hh Hv Hpos.
  assert (Hsmall : int32 (v + 1) = (v + 1)%Z) by (apply int32_small; lia).
  assert (Hneg : (v + 1 <? 0)%Z = false) by (apply Z.ltb_ge; lia).
  unfold RestartBee. unfold_prims. simpl.
  repeat (progress (rewrite ?Hwk, ?lookup_insert_eq, ?Hh, ?Hv, ?Hsmall, ?Hneg;
                    simpl)).
  eexists _, (fresh (sigChans w)), _.
  split; [reflexivity|]. simpl.
  split; [apply is_fresh|].
  split; [by rewrite <- !app_assoc|].
  split; [reflexivity|].
  split; [apply lookup_insert_eq|]. simpl.
  split; [reflexivity|]. split; [reflexivity|]. split; [reflexivity|].
  split; [reflexivity|].
  intros (wk' & h' & Hwk' & Hh' & Hnone & _). simpl in Hwk'.
  rewrite lookup_insert_eq in Hwk'. injection Hwk' as <-. simpl in Hh'.
  congruence.
Qed.

(** ** The dispatcher and an event of an unregistered bee *)

(** [GetBee] returns nil for the event's bee, and [handleEvents] calls
    [LogEvent] through it: the dispatcher panics, with the event taken off the
    channel and no task started for it. *)
Lemma handleEvents_unregistered_bee_panics
    (passes : nat) (w : World) (ch : EventChan) (event : Event) (q : list Event) :
  eventChans w !! eventsIn w = Some ch ->
  closed ch = false ->
  sendq ch = event :: q ->
  bees w !! EventBee event = None ->
  handleEvents GetEventDescriptor_Description (S passes) w =
    (Panic NilDereference,
     set_eventChans (<[eventsIn w := mkEventChan q false]> (eventChans w)) w).
Proof.
  intros Hch Hopen Hq Hnone. simpl. unfold handleEvents_body. unfold_prims.
  rewrite Hch, Hopen, Hq. simpl. by rewrite Hnone.
Qed.

(** * Further properties of the package *)

(** ** Deleting a bee *)

Lemma DeleteBee_live (bee : loc) (w : World) (wk : Worker) :
  workers w !! bee = Some wk ->
  DeleteBee bee w =
    (Ok tt,
     set_bees (delete (BeeName (base wk)) (bees w))
       (set_workers
          (<[bee := mkWorker (setRunning false (base wk)) (runScript wk) (runCalls wk)]>
             (workers w))
          (set_trace (trace w ++ [CallStop bee]) w))).
Proof.
  intros H. unfold_prims. simpl. rewrite !H. simpl.
  rewrite lookup_insert_eq. reflexivity.
Qed.

(** X1: [DeleteBee] calls [Stop] on the worker and then removes whatever the
    registry holds under the worker's name: afterwards [GetBee] misses for
    that name, also when the entry was another worker of the same name; the
    entries of other names are as they were, the registry is smaller by at
    most one, and the worker itself stays on the heap. *)
Theorem DeleteBee_stops_and_unregisters_by_name
    (bee : loc) (w : World) (wk : Worker) :
  workers w !! bee = Some wk ->
  exists w',
    DeleteBee bee w = (Ok tt, w') /\
    trace w' = trace w ++ [CallStop bee] /\
    GetBee (BeeName (base wk)) w' = (Ok None, w') /\
    (forall other, other <> BeeName (base wk) ->
                   bees w' !! other = bees w !! other) /\
    size (bees w') =
      match bees w !! BeeName (base wk) with
      | Some _ => pred (size (bees w))
      | None => size (bees w)
      end /\
    is_Some (workers w' !! bee) /\
    goroutines w' = goroutines w.
Proof.
  intros Hwk. eexists. split; [apply (DeleteBee_live _ _ _ Hwk)|]. simpl.
  split; [reflexivity|].
  split; [unfold GetBee; simpl; by rewrite lookup_delete_eq|].
  split; [intros other Hne; by rewrite lookup_delete_ne|].
  split; [|split; [rewrite lookup_insert_eq; by eexists | reflexivity]].
  rewrite map_size_delete. by destruct (bees w !! BeeName (base wk)).
Qed.

(** X2: registering a worker under a name that is free and deleting it again
    gives back the registry as it was: [GetBee] answers every identifier as
    before. *)
Theorem register_then_delete_restores_registry
    (bee : loc) (w : World) (wk : Worker) :
  workers w !! bee = Some wk ->
  bees w !! BeeName (base wk) = None ->
  exists w',
    (RegisterBee bee ;; DeleteBee bee) w = (Ok tt, w') /\
    bees w' = bees w /\
    (forall identifier, fst (GetBee identifier w') = fst (GetBee identifier w)).
Proof.
  intros Hwk Hfree. unfold bind at 1. rewrite (RegisterBee_live _ _ _ Hwk).
  erewrite DeleteBee_live by exact Hwk.
  eexists. split; [reflexivity|]. simpl.
  assert (Heq : delete (BeeName (base wk))
                  (<[BeeName (base wk) := bee]> (bees w)) = bees w)
    by (by apply delete_insert_id).
  split; [exact Heq|].
  intros identifier. unfold GetBee. simpl. rewrite Heq.
  by destruct (bees w !! identifier).
Qed.

(** ** Enumerations *)

(** X3: [GetBees] lists exactly the registered workers, one entry for each
    identifier, and [GetBeeFactories] does the same for the factories;
    neither changes the world. *)
Theorem enumerations_list_every_entry_once (w : World) :
  exists r rf,
    GetBees w = (Ok r, w) /\
    GetBeeFactories w = (Ok rf, w) /\
    length r = size (bees w) /\
    length rf = size (factories w) /\
    (forall bee, In bee r <-> exists name, bees w !! name = Some bee) /\
    (forall f, In f rf <-> exists class, factories w !! class = Some f).
Proof.
  assert (Hin : forall (m : gmap string loc) x,
            In x (map snd (map_to_list m)) <-> exists k, m !! k = Some x).
  { intros m x. rewrite in_map_iff. split.
    - intros ([k y] & <- & Hin). exists k.
      by apply elem_of_map_to_list, list_elem_of_In.
    - intros (k & Hk). exists (k, x). split; [reflexivity|].
      by apply list_elem_of_In, elem_of_map_to_list. }
  exists (map snd (map_to_list (bees w))), (map snd (map_to_list (factories w))).
  split; [apply GetBees_values|].
  split; [unfold GetBeeFactories; by rewrite range_values|].
  split; [by rewrite length_map, length_map_to_list|].
  split; [by rewrite length_map, length_map_to_list|].
  split; intros x; apply Hin.
Qed.

(** ** New bees *)

(** X4: two bees made by [NewBee] never share their stop signal or their
    wait group: each call makes a channel and a wait group that did not exist
    before, and leaves the wait group at one. *)
Theorem NewBee_handles_are_not_shared
    (n1 f1 d1 n2 f2 d2 : string) (o1 o2 : list BeeOption) (w : World) :
  exists b1 b2 s1 s2 h1 h2 w',
    (b1 <- NewBee n1 f1 d1 o1 ;; b2 <- NewBee n2 f2 d2 o2 ;; ret (b1, b2)) w
      = (Ok (b1, b2), w') /\
    SigChan b1 = Some s1 /\ SigChan b2 = Some s2 /\ s1 <> s2 /\
    waitGroup b1 = Some h1 /\ waitGroup b2 = Some h2 /\ h1 <> h2 /\
    (s1 ∉ sigChans w) /\ (s2 ∉ sigChans w) /\
    waitGroups w !! h1 = None /\ waitGroups w !! h2 = None /\
    waitGroups w' !! h1 = Some 1%Z /\ waitGroups w' !! h2 = Some 1%Z /\
    Running b1 = false /\ Running b2 = false.
Proof.
  unfold bind at 1. rewrite NewBee_result.
  set (s1 := fresh (sigChans w)). set (h1 := fresh (dom (waitGroups w))).
  set (w1 := set_trace _ _).
  unfold bind at 1. rewrite NewBee_result.
  set (s2 := fresh (sigChans w1)). set (h2 := fresh (dom (waitGroups w1))).
  assert (Hs1 : s1 ∉ sigChans w) by apply is_fresh.
  assert (Hh1 : h1 ∉ dom (waitGroups w)) by apply is_fresh.
  assert (Hs2 : s2 ∉ sigChans w1) by apply is_fresh.
  assert (Hh2 : h2 ∉ dom (waitGroups w1)) by apply is_fresh.
  simpl in Hs2, Hh2. rewrite dom_insert in Hh2.
  assert (s1 <> s2) by set_solver.
  assert (h1 <> h2) by set_solver.
  eexists _, _, s1, s2, h1, h2, _. split; [reflexivity|]. simpl.
  repeat split; try reflexivity; try done.
  - set_solver.
  - by apply not_elem_of_dom.
  - apply not_elem_of_dom. set_solver.
  - rewrite lookup_insert_ne by done. apply lookup_insert_eq.
  - apply lookup_insert_eq.
Qed.

(** ** More on the supervised run task *)

(** One attempt of a worker whose completion handle is a live wait group at
    [v]: [Run], then [Done], which panics when it takes the counter below
    zero, whatever [Run] did. *)
Lemma attempt_with_handle (bee : loc) (w : World) (wk : Worker) (h : loc) (v : Z) :
  workers w !! bee = Some wk ->
  waitGroup (base wk) = Some h ->
  waitGroups w !! h = Some v ->
  (-2147483647 <= v <= 2147483647)%Z ->
  (wg <- BeeInterface_WaitGroup bee ;;
   defer_call (WaitGroup_Done wg)
     (c <- gets eventsIn ;; BeeInterface_Run bee c)) w =
    (if (v - 1 <? 0)%Z then Panic NegativeWaitGroupCounter
     else match runScript wk (runCalls wk) with
          | None => Ok tt
          | Some e => Panic e
          end,
     set_trace (trace w ++ [CallRun bee (eventsIn w); WgAdd h (-1)])
       (set_waitGroups (<[h := (v - 1)%Z]> (waitGroups w))
          (set_workers (<[bee := afterRuns 1 wk]> (workers w)) w))).
Proof.
  intros Hwk Hh Hv Hrange.
  assert (Hsmall : int32 (v + -1) = (v - 1)%Z) by (apply int32_small; lia).
  unfold defer_call. unfold_prims. simpl. rewrite !Hwk. simpl.
  rewrite Hh.
  destruct (runScript wk (runCalls wk)) as [e|]; simpl;
    rewrite Hv, Hsmall; destruct (v - 1 <? 0)%Z; simpl;
    rewrite <- app_assoc; reflexivity.
Qed.

(** With the counter at zero or below, every attempt ends in the panic of
    [Done], so all the attempts that are left are made. *)
Lemma startBee_negative_handle (bee : loc) (k : nat) :
  forall (fatals : Z) (w : World) (wk : Worker) (h : loc) (v : Z),
    Z.of_nat k = (3 - fatals)%Z ->
    workers w !! bee = Some wk ->
    waitGroup (base wk) = Some h ->
    waitGroups w !! h = Some v ->
    (v <= 0)%Z -> (-2147483648 <= v - Z.of_nat k)%Z ->
    exists w' t,
      startBee bee fatals w = (Ok tt, w') /\
      trace w' = trace w ++ t /\
      runsIn bee t = k /\
      logged t = fatalLines (repeat NegativeWaitGroupCounter k) fatals
                 ++ [LogTerminating (BeeName (base wk)) 3] /\
      workers w' !! bee = Some (afterRuns k wk) /\
      waitGroups w' !! h = Some (v - Z.of_nat k)%Z /\
      bees w' = bees w /\ goroutines w' = goroutines w /\
      (forall b, ~ In (CallStart b) t).
Proof.
  induction k as [|k IH]; intros fatals w wk h v Hk Hwk Hh Hv Hle Hlow.
  - assert (fatals = 3%Z) by lia. subst fatals.
    rewrite startBee_gives_up by lia. unfold_prims. rewrite Hwk. simpl.
    eexists _, _. split; [reflexivity|]. simpl.
    split; [reflexivity|]. split; [reflexivity|]. split; [reflexivity|].
    split; [by rewrite afterRuns_zero|].
    split; [rewrite Hv; f_equal; lia|]. split; [reflexivity|].
    split; [reflexivity|]. intros b [Hin|[]]. discriminate.
  - rewrite startBee_attempts by lia. unfold defer_recover.
    rewrite (attempt_with_handle bee w wk h v Hwk Hh Hv) by lia.
    assert (Hneg : (v - 1 <? 0)%Z = true) by (apply Z.ltb_lt; lia).
    rewrite Hneg. unfold bind, log_Println, observe, modify.
    set (w2 := set_trace _ _).
    destruct (IH (fatals + 1)%Z w2 (afterRuns 1 wk) h (v - 1)%Z)
      as (w' & t' & Hrun & Htrace & Hruns & Hlog & Hworkers & Hcounter
          & Hbees & Hgo & Hnostart);
      [lia | apply lookup_insert_eq | exact Hh | apply lookup_insert_eq
       | lia | lia |].
    exists w', ([CallRun bee (eventsIn w); WgAdd h (-1);
                 Logged (LogFatalBee NegativeWaitGroupCounter fatals)] ++ t').
    split; [exact Hrun|].
    split; [rewrite Htrace; simpl; rewrite <- !app_assoc; reflexivity|].
    split; [unfold runsIn in *; rewrite count_app; cbn [count];
            rewrite isRun_same, Hruns; cbn [isRun]; lia|].
    split; [rewrite logged_app, Hlog; reflexivity|].
    split; [by rewrite Hworkers, afterRuns_succ|].
    split; [rewrite Hcounter; f_equal; lia|].
    split; [exact Hbees|]. split; [exact Hgo|].
    intros b Hin. apply in_app_or in Hin as [Hin|Hin]; [|by apply (Hnostart b)].
    simpl in Hin. destruct Hin as [Hin|[Hin|[Hin|[]]]]; discriminate.
Qed.

(** After a failed first [Run] under a handle at one or below, the two
    retries are made and end in the panic of [Done]. *)
Lemma startBee_first_failure (bee : loc) (w : World) (wk : Worker)
    (h : loc) (v : Z) (e : PanicVal) :
  workers w !! bee = Some wk ->
  waitGroup (base wk) = Some h ->
  waitGroups w !! h = Some v ->
  (-2147483645 <= v <= 1)%Z ->
  runScript wk (runCalls wk) = Some e ->
  exists w' t e0,
    startBee bee 0 w = (Ok tt, w') /\
    trace w' = trace w ++ t /\
    runsIn bee t = 3 /\
    logged t = [LogFatalBee e0 0; LogFatalBee NegativeWaitGroupCounter 1;
                LogFatalBee NegativeWaitGroupCounter 2;
                LogTerminating (BeeName (base wk)) 3] /\
    workers w' !! bee = Some (afterRuns 3 wk) /\
    waitGroups w' !! h = Some (v - 3)%Z /\
    bees w' = bees w /\ goroutines w' = goroutines w /\
    (forall b, ~ In (CallStart b) t).
Proof.
  intros Hwk Hh Hv Hrange Hfail.
  rewrite startBee_attempts by lia. unfold defer_recover.
  rewrite (attempt_with_handle bee w wk h v Hwk Hh Hv) by lia.
  rewrite Hfail.
  set (e0 := if (v - 1 <? 0)%Z then NegativeWaitGroupCounter else e).
  assert (Hres : (if (v - 1 <? 0)%Z
                  then @Panic unit NegativeWaitGroupCounter else Panic e)
                 = Panic e0) by (unfold e0; by destruct (v - 1 <? 0)%Z).
  rewrite Hres. unfold bind, log_Println, observe, modify.
  set (w2 := set_trace _ _).
  destruct (startBee_negative_handle bee 2 (0 + 1)%Z w2 (afterRuns 1 wk) h (v - 1)%Z)
    as (w' & t' & Hrun & Htrace & Hruns & Hlog & Hworkers & Hcounter
        & Hbees & Hgo & Hnostart);
    [lia | apply lookup_insert_eq | exact Hh | apply lookup_insert_eq
     | lia | lia |].
  exists w', ([CallRun bee (eventsIn w); WgAdd h (-1);
               Logged (LogFatalBee e0 0)] ++ t'), e0.
  split; [exact Hrun|].
  split; [rewrite Htrace; simpl; rewrite <- !app_assoc; reflexivity|].
  split; [unfold runsIn in *; rewrite count_app; cbn [count];
          rewrite isRun_same, Hruns; cbn [isRun]; lia|].
  split; [rewrite logged_app, Hlog; reflexivity|].
  split; [by rewrite Hworkers, afterRuns_succ|].
  split; [rewrite Hcounter; f_equal; lia|].
  split; [exact Hbees|]. split; [exact Hgo|].
  intros b Hin. apply in_app_or in Hin as [Hin|Hin]; [|by apply (Hnostart b)].
  simpl in Hin. destruct Hin as [Hin|[Hin|[Hin|[]]]]; discriminate.
Qed.

(** X5: when [Run] returns normally at the first attempt and the wait group
    stands at one or more, supervision ends there: one call of [Run], one
    [Done] that takes the counter down by one, nothing logged, no retry and
    no task started. *)
Theorem startBee_clean_run_is_not_retried
    (bee : loc) (fatals : Z) (w : World) (wk : Worker) (h : loc) (v : Z) :
  workers w !! bee = Some wk ->
  waitGroup (base wk) = Some h ->
  waitGroups w !! h = Some v ->
  (1 <= v <= 2147483647)%Z ->
  (fatals < 3)%Z ->
  runScript wk (runCalls wk) = None ->
  exists w',
    startBee bee fatals w = (Ok tt, w') /\
    trace w' = trace w ++ [CallRun bee (eventsIn w); WgAdd h (-1)] /\
    waitGroups w' !! h = Some (v - 1)%Z /\
    workers w' !! bee = Some (afterRuns 1 wk) /\
    bees w' = bees w /\ goroutines w' = goroutines w.
Proof.
  intros Hwk Hh Hv Hrange Hfatals Hok.
  rewrite startBee_attempts by lia. unfold defer_recover.
  rewrite (attempt_with_handle bee w wk h v Hwk Hh Hv) by lia.
  assert (Hneg : (v - 1 <? 0)%Z = false) by (apply Z.ltb_ge; lia).
  rewrite Hneg, Hok. eexists. split; [reflexivity|]. simpl.
  split; [reflexivity|]. split; [apply lookup_insert_eq|].
  split; [apply lookup_insert_eq|]. split; reflexivity.
Qed.


(** X7: whatever the run loop of a live worker does, [startBee] returns
    normally, calls [Run] at most [3 - fatals] times (not at all from a count
    of three on, at least once below it), and leaves the registry and the
    started tasks as they were. *)
Theorem startBee_returns_and_is_bounded
    (bee : loc) (fatals : Z) (w : World) (wk : Worker) :
  workers w !! bee = Some wk ->
  exists w' t,
    startBee bee fatals w = (Ok tt, w') /\
    trace w' = trace w ++ t /\
    runsIn bee t <= Z.to_nat (3 - fatals) /\
    ((fatals < 3)%Z -> 1 <= runsIn bee t) /\
    bees w' = bees w /\ goroutines w' = goroutines w.
Proof.
  intros Hwk. destruct (Z_le_gt_dec fatals 3) as [Hle|Hgt].
  - destruct (startBee_live bee (Z.to_nat (3 - fatals)) fatals w wk)
      as (w' & t & n & Hrun & Htrace & Hruns & Hbound & Hone & _ & Hbees
          & Hgo & _); [lia | exact Hwk |].
    exists w', t. rewrite Hruns.
    split; [exact Hrun|]. split; [exact Htrace|]. split; [exact Hbound|].
    split; [intros; apply Hone; lia|]. split; [exact Hbees | exact Hgo].
  - rewrite startBee_gives_up by lia. unfold_prims. rewrite Hwk. simpl.
    eexists _, _. split; [reflexivity|]. simpl.
    split; [reflexivity|]. split; [unfold runsIn; simpl; lia|].
    split; [lia|]. split; reflexivity.
Qed.

(** ** Starting bees *)

Lemma forM__app {A} (l1 l2 : list A) (f : A -> M unit) (w : World) :
  forM_ (l1 ++ l2) f w =
    match forM_ l1 f w with
    | (Ok _, w1) => forM_ l2 f w1
    | (Panic e, w1) => (Panic e, w1)
    end.
Proof.
  revert w. induction l1 as [|a l1 IH]; intros w; simpl; [reflexivity|].
  unfold bind. destruct (f a w) as [[[]|e] w1]; [apply IH | reflexivity].
Qed.

Lemma StartBee_unknown (bee : BeeInstance) (w : World) :
  factories w !! InstanceClass bee = None ->
  StartBee BeeFactoryInterface_New bee w =
    (Panic (PanicMsg (String.append "Unknown bee-class in config file: "
                                    (InstanceClass bee))), w).
Proof.
  intros H. unfold StartBee, NewBeeInstance, GetFactory, gets, bind.
  by rewrite H.
Qed.

Lemma StartBee_known (bee : BeeInstance) (w w1 : World) (f mod_ : loc) (wk : Worker) :
  factories w !! InstanceClass bee = Some f ->
  BeeFactoryInterface_New f (InstanceName bee) (InstanceDescription bee)
    (InstanceOptions bee) w = (Ok mod_, w1) ->
  workers w1 !! mod_ = Some wk ->
  StartBee BeeFactoryInterface_New bee w =
    (Ok mod_,
     set_goroutines (goroutines w1 ++ [TaskStartBee mod_ 0])
       (set_workers
          (<[mod_ := mkWorker (setRunning true (base wk)) (runScript wk) (runCalls wk)]>
             (workers w1))
          (set_trace
             (trace w1 ++ [Logged (LogWorkerReady (BeeName (base wk))
                                                  (BeeDescription (base wk)));
                           CallStart mod_])
             (set_bees (<[BeeName (base wk) := mod_]> (bees w1)) w1)))).
Proof.
  intros Hf Hnew Hwk.
  unfold StartBee, NewBeeInstance, GetFactory, gets.
  unfold bind at 1. unfold bind at 1. rewrite Hf.
  unfold bind at 1. rewrite Hnew.
  unfold bind at 1. rewrite (RegisterBee_live _ _ _ Hwk).
  unfold_prims. simpl. rewrite !Hwk. simpl.
  by rewrite <- app_assoc.
Qed.

(** X8: [StartBee] of a descriptor whose class has no factory panics before
    anything is done: nothing is started and the world is as it was.  With a
    factory, the worker it constructs is registered under its name, [Start]
    is called on it, and exactly one task is started: its supervised run
    task, with a count of zero. *)
Theorem StartBee_registers_starts_and_supervises :
  (forall (bee : BeeInstance) (w : World),
     factories w !! InstanceClass bee = None ->
     exists e, StartBee BeeFactoryInterface_New bee w = (Panic e, w)) /\
  (forall (bee : BeeInstance) (w w1 : World) (f mod_ : loc) (wk : Worker),
     factories w !! InstanceClass bee = Some f ->
     BeeFactoryInterface_New f (InstanceName bee) (InstanceDescription bee)
       (InstanceOptions bee) w = (Ok mod_, w1) ->
     workers w1 !! mod_ = Some wk ->
     exists w2 wk',
       StartBee BeeFactoryInterface_New bee w = (Ok mod_, w2) /\
       GetBee (BeeName (base wk)) w2 = (Ok (Some mod_), w2) /\
       trace w2 = trace w1 ++
                  [Logged (LogWorkerReady (BeeName (base wk))
                                          (BeeDescription (base wk)));
                   CallStart mod_] /\
       goroutines w2 = goroutines w1 ++ [TaskStartBee mod_ 0] /\
       workers w2 !! mod_ = Some wk' /\ Running (base wk') = true).
Proof.
  split.
  - intros bee w Hnone. eexists. by apply StartBee_unknown.
  - intros bee w w1 f mod_ wk Hf Hnew Hwk.
    eexists _, _. split; [apply (StartBee_known _ _ _ _ _ _ Hf Hnew Hwk)|].
    simpl. split; [unfold GetBee; simpl; by rewrite lookup_insert_eq|].
    split; [reflexivity|]. split; [reflexivity|].
    split; [apply lookup_insert_eq | reflexivity].
Qed.

(** X9: [StartBees] does not undo what it has done when a descriptor names
    an unknown class: it panics at that descriptor and leaves the world
    exactly as a [StartBees] of the descriptors before it leaves it (new
    channel, dispatcher task, those bees registered, started and supervised),
    and none of the descriptors after it is looked at. *)
Theorem StartBees_stops_at_unknown_class
    (pre rest : list BeeInstance) (bad : BeeInstance) (w w1 : World) :
  StartBees BeeFactoryInterface_New pre w = (Ok tt, w1) ->
  factories w1 !! InstanceClass bad = None ->
  StartBees BeeFactoryInterface_New (pre ++ bad :: rest) w =
    (Panic (PanicMsg (String.append "Unknown bee-class in config file: "
                                    (InstanceClass bad))), w1).
Proof.
  unfold StartBees. unfold bind at 1 2 3 5 6 7.
  unfold make_chan_Event, modify, go. simpl.
  intros Hpre Hnone. rewrite forM__app, Hpre. simpl.
  unfold bind at 1. unfold bind at 1. by rewrite (StartBee_unknown _ _ Hnone).
Qed.

(** ** Stopping twice, and restarting everything *)

(** The world a [StopBees] that returned has left. *)
Lemma StopBees_range_result (order : list (string * loc)) (w w' : World) :
  StopBees_range order w = (Ok tt, w') ->
  exists w1 ch,
    eventsIn w1 = eventsIn w /\
    eventChans w1 = eventChans w /\
    eventChans w !! eventsIn w = Some ch /\ closed ch = false /\
    w' = set_bees ∅
           (set_trace (trace w1 ++ [ChanClose (eventsIn w)])
              (set_eventChans
                 (<[eventsIn w := mkEventChan [] true]> (eventChans w)) w1)).
Proof.
  intros Hrun. unfold StopBees_range, bind at 1 in Hrun.
  destruct (forM_ order _ w) as [[[]|e] w1] eqn:Hloop; [|discriminate].
  pose proof (stop_loop_keeps_eventsIn order w) as He.
  pose proof (stop_loop_keeps_eventChans order w) as Hc.
  unfold M in *. rewrite Hloop in He, Hc. simpl in He, Hc.
  revert Hrun. unfold_prims.
  destruct (eventChans w1 !! eventsIn w1) as [ch|] eqn:Hch; [|discriminate].
  destruct (closed ch) eqn:Hclosed; [discriminate|].
  intros [= <-]. exists w1, ch. rewrite <- He, <- Hc. auto.
Qed.

(** X10: [StopBees] cannot be called twice in a row: when it has returned,
    the next [StopBees] finds no bee to stop and panics closing the channel
    that is already closed; the world is not changed by that second call. *)
Theorem StopBees_twice_panics (order : list (string * loc)) (w w' : World) :
  StopBees_range order w = (Ok tt, w') ->
  StopBees w' = (Panic CloseOfClosedChannel, w').
Proof.
  intros Hrun.
  destruct (StopBees_range_result _ _ _ Hrun) as (w1 & ch & He & Hc & _ & _ & ->).
  unfold StopBees, StopBees_range. simpl. rewrite map_to_list_empty. simpl.
  unfold_prims. simpl. rewrite He, lookup_insert_eq. reflexivity.
Qed.

Lemma StartBee_keeps {B} (f : World -> B) (bee : BeeInstance) :
  (forall fa n d o, keeps f (BeeFactoryInterface_New fa n d o)) ->
  (forall t w, f (set_trace t w) = f w) ->
  (forall m w, f (set_bees m w) = f w) ->
  (forall h w, f (set_workers h w) = f w) ->
  (forall g w, f (set_goroutines g w) = f w) ->
  keeps f (StartBee BeeFactoryInterface_New bee : M loc).
Proof.
  intros Hnew Ht Hb Hw Hg.
  assert (Hleaf : forall (c : M unit),
            (forall w, exists w1 t m h g, snd (c w) =
               set_goroutines g (set_workers h (set_bees m (set_trace t w1)))
               /\ f w1 = f w) -> keeps f c).
  { intros c Hc w. destruct (Hc w) as (w1 & t & m & h & g & -> & Hw1).
    by rewrite Hg, Hw, Hb, Ht. }
  unfold StartBee, NewBeeInstance, GetFactory.
  apply keeps_bind; [|intros b].
  - apply keeps_bind; [apply keeps_gets|]. intros [fa|]; [|apply keeps_panic].
    apply keeps_bind; [apply Hnew|]. intros mod_.
    apply keeps_bind; [|intros _; apply keeps_ret].
    intros w. unfold_prims.
    destruct (workers w !! mod_) as [wk|] eqn:Hwk; simpl; [|reflexivity].
    rewrite ?Hwk. simpl. by rewrite Hb, Ht.
  - apply keeps_bind; [|intros _].
    + intros w. unfold_prims.
      destruct (workers w !! b) as [wk|] eqn:Hwk; simpl; [|reflexivity].
      rewrite ?Hwk. simpl. by rewrite Hw, Ht.
    + apply keeps_bind; [|intros _; apply keeps_ret].
      intros w. unfold go, modify. simpl. apply Hg.
Qed.

(** X11: [RestartBees] never goes on with the channel it has closed.  When
    its [StopBees] has returned and the factories leave the channels alone,
    then however the new start ends, [eventsIn] is a channel that did not
    exist before, open and empty, while the old channel stays closed; and the
    new dispatcher task has been started. *)
Theorem RestartBees_opens_a_new_channel
    (beeList : list BeeInstance) (w w1 : World) :
  (forall fa n d o, keeps eventsIn (BeeFactoryInterface_New fa n d o)) ->
  (forall fa n d o, keeps eventChans (BeeFactoryInterface_New fa n d o)) ->
  StopBees w = (Ok tt, w1) ->
  exists r w',
    RestartBees BeeFactoryInterface_New beeList w = (r, w') /\
    eventsIn w' <> eventsIn w /\
    eventChans w !! eventsIn w' = None /\
    eventChans w' !! eventsIn w' = Some (mkEventChan [] false) /\
    eventChans w' !! eventsIn w = Some (mkEventChan [] true).
Proof.
  intros HkIn HkCh Hstop.
  destruct (StopBees_range_result _ _ _ Hstop) as (w0 & ch & He & Hc & Hch & _ & Hw1).
  unfold RestartBees, bind at 1. rewrite Hstop.
  unfold StartBees. unfold bind at 1 2 3.
  unfold make_chan_Event, modify, go. simpl.
  set (c := fresh (dom (eventChans w1))).
  set (w2 := set_goroutines _ _).
  set (body := fun bee : BeeInstance => _).
  assert (HbIn : keeps eventsIn (forM_ beeList body : M unit)).
  { apply keeps_forM_. intros bee. unfold body.
    apply keeps_bind; [|intros _; apply keeps_ret].
    apply StartBee_keeps; [exact HkIn | reflexivity..]. }
  assert (HbCh : keeps eventChans (forM_ beeList body : M unit)).
  { apply keeps_forM_. intros bee. unfold body.
    apply keeps_bind; [|intros _; apply keeps_ret].
    apply StartBee_keeps; [exact HkCh | reflexivity..]. }
  specialize (HbIn w2). specialize (HbCh w2).
  destruct (forM_ beeList body w2) as [r w'] eqn:Hloop.
  simpl in HbIn, HbCh. exists r, w'. split; [reflexivity|].
  assert (Hfresh : c ∉ dom (eventChans w1)) by apply is_fresh.
  assert (Hdom : dom (eventChans w1) = {[eventsIn w]} ∪ dom (eventChans w)).
  { rewrite Hw1. simpl. by rewrite dom_insert_L. }
  rewrite Hdom in Hfresh.
  assert (Hne : c <> eventsIn w).
  { intros Heq. apply Hfresh. rewrite Heq.
    by apply elem_of_union_l, elem_of_singleton. }
  rewrite HbIn, HbCh. unfold w2. simpl.
  split; [exact Hne|].
  split; [apply not_elem_of_dom; intros Hin; apply Hfresh;
          by apply elem_of_union_r|].
  split; [apply lookup_insert_eq|].
  rewrite lookup_insert_ne by done. rewrite Hw1. simpl.
  apply lookup_insert_eq.
Qed.

(** ** Restarting a bee whose wait group is overdrawn *)

Lemma RestartBee_overdrawn (bee : loc) (w : World) (wk : Worker) (h : loc) (v : Z) :
  workers w !! bee = Some wk ->
  waitGroup (base wk) = Some h ->
  waitGroups w !! h = Some v ->
  (-2147483648 <= v < -1)%Z ->
  exists w' wk',
    RestartBee bee w = (Panic NegativeWaitGroupCounter, w') /\
    trace w' = trace w ++ [CallStop bee;
                           CallSetSigChan bee (fresh (sigChans w));
                           WgAdd h 1] /\
    goroutines w' = goroutines w /\
    waitGroups w' !! h = Some (v + 1)%Z /\
    workers w' !! bee = Some wk' /\ Running (base wk') = false.
Proof.
  intros Hwk Hh Hv Hrange.
  assert (Hsmall : int32 (v + 1) = (v + 1)%Z) by (apply int32_small; lia).
  assert (Hneg : (v + 1 <? 0)%Z = true) by (apply Z.ltb_lt; lia).
  unfold RestartBee. unfold_prims. simpl.
  repeat (progress (rewrite ?Hwk, ?lookup_insert_eq, ?Hh, ?Hv, ?Hsmall, ?Hneg;
                    simpl)).
  eexists _, _. split; [reflexivity|]. simpl.
  split; [by rewrite <- !app_assoc|]. split; [reflexivity|].
  split; [apply lookup_insert_eq|].
  split; [apply lookup_insert_eq | reflexivity].
Qed.

(** X12: on a worker whose wait group stands below minus one, [RestartBee]
    panics at [Add(1)], after [Stop] and [SetSigChan] and before [Start]:
    the worker is left stopped with a new stop signal, the counter one
    higher, and no supervised run task is started. *)
Theorem RestartBee_panics_on_overdrawn_handle
    (bee : loc) (w : World) (wk : Worker) (h : loc) (v : Z) :
  workers w !! bee = Some wk ->
  waitGroup (base wk) = Some h ->
  waitGroups w !! h = Some v ->
  (-2147483648 <= v < -1)%Z ->
  exists w' wk',
    RestartBee bee w = (Panic NegativeWaitGroupCounter, w') /\
    trace w' = trace w ++ [CallStop bee;
                           CallSetSigChan bee (fresh (sigChans w));
                           WgAdd h 1] /\
    goroutines w' = goroutines w /\
    waitGroups w' !! h = Some (v + 1)%Z /\
    workers w' !! bee = Some wk' /\ Running (base wk') = false.
Proof. apply RestartBee_overdrawn. Qed.

(** X13: a worker that supervision has given up cannot be restarted.  For a
    worker whose wait group stands at one, as [NewBee] leaves it, and whose
    first [Run] fails, [startBee] followed by [RestartBee] panics on the
    negative counter: [Start] is never called and no task is started. *)
Theorem abandoned_worker_cannot_be_restarted
    (bee : loc) (w : World) (wk : Worker) (h : loc) (e : PanicVal) :
  workers w !! bee = Some wk ->
  waitGroup (base wk) = Some h ->
  waitGroups w !! h = Some 1%Z ->
  runScript wk (runCalls wk) = Some e ->
  exists w' t,
    (startBee bee 0 ;; RestartBee bee) w
      = (Panic NegativeWaitGroupCounter, w') /\
    trace w' = trace w ++ t /\
    ~ In (CallStart bee) t /\
    goroutines w' = goroutines w /\
    waitGroups w' !! h = Some (-1)%Z.
Proof.
  intros Hwk Hh Hv Hfail.
  destruct (startBee_first_failure bee w wk h 1 e Hwk Hh Hv) as
    (w1 & t & e0 & Hrun & Htrace & Hruns & Hlog & Hworkers & Hcounter
     & _ & Hgo & Hnostart); [lia | exact Hfail |].
  destruct (RestartBee_overdrawn bee w1 (afterRuns 3 wk) h (1 - 3)%Z
              Hworkers Hh Hcounter) as
    (w' & wk' & Hrestart & Htrace' & Hgo' & Hcounter' & _); [lia|].
  unfold bind. rewrite Hrun, Hrestart.
  exists w', (t ++ [CallStop bee; CallSetSigChan bee (fresh (sigChans w1));
                    WgAdd h 1]).
  split; [reflexivity|].
  split; [by rewrite Htrace', Htrace, <- app_assoc|].
  split; [|split; [by rewrite Hgo', Hgo | exact Hcounter']].
  intros Hin. apply in_app_or in Hin as [Hin|Hin].
  - by apply (Hnostart bee).
  - simpl in Hin. destruct Hin as [Hin|[Hin|[Hin|[]]]]; discriminate.
Qed.

(** ** The dispatcher on events of registered bees *)

Lemma forM__cons {A} (a : A) (l : list A) (f : A -> M unit) :
  forM_ (a :: l) f = (f a ;; forM_ l f).
Proof. reflexivity. Qed.

Lemma log_options_result (opts : list Placeholder) (w : World) :
  forM_ opts (fun v => log_Println (LogOptions v)) w
    = (Ok tt,
       set_trace (trace w ++ map (fun v => Logged (LogOptions v)) opts) w).
Proof.
  revert w. induction opts as [|v opts IH]; intros w.
  - destruct w. unfold forM_, ret, set_trace. simpl. by rewrite app_nil_r.
  - rewrite forM__cons. unfold bind, log_Println, observe, modify.
    rewrite IH. simpl. by rewrite <- app_assoc.
Qed.

Lemma no_run_in_logged_options (bee : loc) (opts : list Placeholder) :
  runsIn bee (map (fun v => Logged (LogOptions v)) opts) = 0.
Proof. unfold runsIn. induction opts as [|v opts IH]; simpl; auto. Qed.

(** One pass of the loop over an event of a registered, live bee. *)
Lemma handleEvents_body_dispatches
    (w : World) (event : Event) (q : list Event) (bee : loc) (wk : Worker) :
  (forall ev w0, exists d, GetEventDescriptor_Description ev w0 = (Ok d, w0)) ->
  eventChans w !! eventsIn w = Some (mkEventChan (event :: q) false) ->
  bees w !! EventBee event = Some bee ->
  workers w !! bee = Some wk ->
  exists w1 d,
    handleEvents_body GetEventDescriptor_Description w = (Ok LoopNext, w1) /\
    goroutines w1 = goroutines w ++ [TaskChain event] /\
    eventsIn w1 = eventsIn w /\
    eventChans w1 = <[eventsIn w := mkEventChan q false]> (eventChans w) /\
    bees w1 = bees w /\
    workers w1 = <[bee := mkWorker
                     (mkBee (BeeName (base wk)) (BeeNamespace (base wk))
                        (BeeDescription (base wk)) (BeeOptions (base wk))
                        (now w) (lastAction (base wk)) (Running (base wk))
                        (SigChan (base wk)) (waitGroup (base wk)))
                     (runScript wk) (runCalls wk)]> (workers w) /\
    trace w1 = trace w ++
      [CallLogEvent bee; Logged LogBlank;
       Logged (LogEventReceived (EventBee event) (EventName event) d)]
      ++ map (fun v => Logged (LogOptions v)) (EventOptions event).
Proof.
  intros Hpure Hch Hbee Hwk.
  unfold handleEvents_body. unfold_prims. simpl. rewrite Hch. simpl.
  rewrite Hbee. simpl. rewrite !Hwk. simpl. rewrite ?lookup_insert_eq.
  match goal with
  | |- context [GetEventDescriptor_Description event ?W] =>
      destruct (Hpure event W) as (d & Hd); rewrite Hd
  end.
  match goal with
  | |- context [forM_ (EventOptions event) ?f ?W] =>
      change (forM_ (EventOptions event) f W) with
        (forM_ (EventOptions event) (fun v => log_Println (LogOptions v)) W);
      rewrite (log_options_result (EventOptions event) W)
  end.
  simpl. eexists _, d. split; [reflexivity|]. simpl.
  split; [reflexivity|]. split; [reflexivity|]. split; [reflexivity|].
  split; [reflexivity|]. split; [reflexivity|].
  by rewrite <- !app_assoc.
Qed.

(** X14: with an open channel on which events of registered, live bees are
    waiting, and an event descriptor lookup that returns, the dispatcher
    takes the events in the order they wait, starts exactly one chain task
    for each, in that order, empties the channel and then waits for the next
    event; the registry is not changed. *)
Theorem handleEvents_starts_one_task_per_event (q : list Event) :
  forall (passes : nat) (w : World),
    (forall ev w0, exists d, GetEventDescriptor_Description ev w0 = (Ok d, w0)) ->
    eventChans w !! eventsIn w = Some (mkEventChan q false) ->
    Forall (fun event => exists bee,
              bees w !! EventBee event = Some bee /\
              is_Some (workers w !! bee)) q ->
    length q < passes ->
    exists w',
      handleEvents GetEventDescriptor_Description passes w = (Ok Waiting, w') /\
      goroutines w' = goroutines w ++ map TaskChain q /\
      eventsIn w' = eventsIn w /\
      eventChans w' !! eventsIn w' = Some (mkEventChan [] false) /\
      bees w' = bees w.
Proof.
  induction q as [|event q IH]; intros passes w Hpure Hch Hreg Hpasses.
  - destruct passes as [|passes]; [simpl in Hpasses; lia|].
    exists w. split; [|by rewrite app_nil_r].
    simpl. unfold handleEvents_body. unfold_prims. by rewrite Hch.
  - destruct passes as [|passes]; [simpl in Hpasses; lia|].
    inversion Hreg as [|? ? (bee & Hbee & [wk Hwk]) Hreg']; subst.
    destruct (handleEvents_body_dispatches w event q bee wk Hpure Hch Hbee Hwk)
      as (w1 & d & Hbody & Hgo & Hin & Hchans & Hbees & Hworkers & _).
    destruct (IH passes w1) as (w' & Hrun & Hgo' & Hin' & Hch' & Hbees').
    + exact Hpure.
    + rewrite Hin, Hchans. apply lookup_insert_eq.
    + eapply Forall_impl; [exact Hreg'|].
      intros ev (b & Hb & [wkb Hwkb]). exists b. rewrite Hbees.
      split; [exact Hb|]. rewrite Hworkers.
      destruct (decide (bee = b)) as [->|Hne].
      * rewrite lookup_insert_eq. by eexists.
      * rewrite lookup_insert_ne by done. by eexists.
    + simpl in Hpasses. lia.
    + exists w'. simpl. unfold bind at 1. rewrite Hbody.
      split; [exact Hrun|].
      split; [rewrite Hgo', Hgo, <- app_assoc; reflexivity|].
      split; [by rewrite Hin', Hin|].
      split; [exact Hch' | by rewrite Hbees', Hbees].
Qed.

(** X15: a panic of the event descriptor lookup is not confined to its
    event either: it is raised in the dispatcher's own loop, after the
    event's bee has been stamped, so the dispatcher panics with it, no chain
    task is started for the event and the events behind it stay on the
    channel. *)
Theorem descriptor_panic_halts_the_dispatcher
    (passes : nat) (w : World) (event : Event) (q : list Event)
    (bee : loc) (wk : Worker) (e : PanicVal) :
  (forall w0, exists w0', GetEventDescriptor_Description event w0 = (Panic e, w0')) ->
  eventChans w !! eventsIn w = Some (mkEventChan (event :: q) false) ->
  bees w !! EventBee event = Some bee ->
  workers w !! bee = Some wk ->
  exists w0 w',
    handleEvents GetEventDescriptor_Description (S passes) w = (Panic e, w') /\
    GetEventDescriptor_Description event w0 = (Panic e, w') /\
    goroutines w0 = goroutines w /\
    eventChans w0 = <[eventsIn w := mkEventChan q false]> (eventChans w) /\
    trace w0 = trace w ++ [CallLogEvent bee; Logged LogBlank].
Proof.
  intros Hpanic Hch Hbee Hwk. simpl.
  unfold handleEvents_body. unfold_prims. simpl. rewrite Hch. simpl.
  rewrite Hbee. simpl. rewrite !Hwk. simpl. rewrite ?lookup_insert_eq.
  match goal with
  | |- context [GetEventDescriptor_Description event ?W] =>
      destruct (Hpanic W) as (w' & Hd); rewrite Hd; exists W, w'
  end.
  split; [reflexivity|]. split; [exact Hd|]. simpl.
  split; [reflexivity|]. split; [reflexivity|].
  by rewrite <- app_assoc.
Qed.

Lemma stop_loop_keeps_goroutines (order : list (string * loc)) :
  keeps goroutines (forM_ order (fun kv =>
    name <- BeeInterface_Name (snd kv) ;;
    log_Println (LogStopping name) ;;
    BeeInterface_Stop (snd kv)) : M unit).
Proof. keeps_tac. Qed.

(** X16: events still waiting on the channel when [StopBees] closes it are
    never dispatched: [StopBees] starts no task, and the dispatcher, at its
    next receive, logs that it stopped and returns without starting a chain
    task. *)
Theorem StopBees_drops_waiting_events
    (order : list (string * loc)) (w w' : World) (passes : nat) :
  StopBees_range order w = (Ok tt, w') ->
  exists w'',
    handleEvents GetEventDescriptor_Description (S passes) w'
      = (Ok Returned, w'') /\
    goroutines w' = goroutines w /\
    goroutines w'' = goroutines w /\
    trace w'' = trace w' ++ [Logged LogBlank; Logged LogStoppedHandler].
Proof.
  intros Hrun.
  unfold StopBees_range, bind at 1 in Hrun.
  destruct (forM_ order _ w) as [[[]|e] w1] eqn:Hloop; [|discriminate].
  pose proof (stop_loop_keeps_goroutines order w) as Hg.
  unfold M in *. rewrite Hloop in Hg. simpl in Hg.
  revert Hrun. unfold_prims.
  destruct (eventChans w1 !! eventsIn w1) as [ch|] eqn:Hch; [|discriminate].
  destruct (closed ch) eqn:Hclosed; [discriminate|].
  intros [= <-].
  eexists. split.
  - eapply handleEvents_closed; [apply lookup_insert_eq | reflexivity].
  - simpl. auto.
Qed.

End Properties.

(** * The scenarios, checked *)

Import Scenario.

Local Open Scope string_scope.
Local Open Scope list_scope.

Lemma startBee_three_attempts_witness :
  workers withBees !! 1 = Some flaky1Worker /\
  (forall i, runScript flaky1Worker i <> None) /\
  exists w' t,
    startBee 1 0 withBees = (Ok tt, w') /\
    trace w' = trace withBees ++ t /\
    runsIn 1 t = 3 /\
    bees w' = bees withBees.
Proof.
  assert (H1 : workers withBees !! 1 = Some flaky1Worker)
    by (vm_compute; reflexivity).
  assert (H2 : forall i, runScript flaky1Worker i <> None)
    by (intros i; discriminate).
  split; [exact H1|]. split; [exact H2|].
  destruct (startBee_three_attempts 1 withBees flaky1Worker H1 H2)
    as (w' & t & e0 & e1 & e2 & Hrun & Htrace & Hruns & _ & _ & Hbees & _).
  exists w', t. auto.
Defined.

(** C2: with an event of an unregistered bee first on the channel, the
    dispatcher panics on the nil pointer that [GetBee] returned; nothing
    recovers it, the event of light1 that was next stays on the channel, and
    no task is started for it.  With the event of light1 alone, the
    dispatcher starts its task and waits for the next event. *)
Theorem stray_event_halts_the_dispatcher :
  fst (handleEvents noDescription 5 withStrayEvent) = Panic NilDereference /\
  goroutines (snd (handleEvents noDescription 5 withStrayEvent)) = [] /\
  sendq <$> eventChans (snd (handleEvents noDescription 5 withStrayEvent)) !! 0
    = Some [light1On] /\
  fst (handleEvents noDescription 5 withLight1On) = Ok Waiting /\
  goroutines (snd (handleEvents noDescription 5 withLight1On))
    = [TaskChain light1On].
Proof. vm_compute. repeat split. Qed.

Lemma NewBeeInstance_unknown_class_is_fatal_witness :
  (factories withFactories !! InstanceClass ghost = None /\
   NewBeeInstance factoryNew ghost withFactories =
     (Panic (PanicMsg "Unknown bee-class in config file: nosuchclass"),
      withFactories)) /\
  (factories withFactories !! InstanceClass light1 = Some 7 /\
   exists w2,
     NewBeeInstance factoryNew light1 withFactories = (Ok 0, w2) /\
     GetBee "light1" w2 = (Ok (Some 0), w2)).
Proof.
  assert (H1 : factories withFactories !! InstanceClass ghost = None)
    by (vm_compute; reflexivity).
  assert (H2 : factories withFactories !! InstanceClass light1 = Some 7)
    by (vm_compute; reflexivity).
  assert (H3 : factoryNew 7 (InstanceName light1) (InstanceDescription light1)
                 (InstanceOptions light1) withFactories
               = (Ok 0, snd (factoryNew 7 "light1" "a light" [] withFactories)))
    by (vm_compute; reflexivity).
  assert (H4 : workers (snd (factoryNew 7 "light1" "a light" [] withFactories)) !! 0
               = Some light1Worker)
    by (vm_compute; reflexivity).
  split.
  - split; [exact H1|].
    destruct (proj1 (NewBeeInstance_unknown_class_is_fatal factoryNew)
                ghost withFactories H1) as (w' & Hrun & -> & _).
    exact Hrun.
  - split; [exact H2|].
    destruct (proj2 (NewBeeInstance_unknown_class_is_fatal factoryNew)
                light1 withFactories _ 7 0 light1Worker H2 H3 H4)
      as (w2 & Hrun & _ & _ & Hget).
    exists w2. auto.
Defined.

Lemma handle_done_once_per_attempt_witness :
  exists bee b h w' t,
    superviseNewBee "flaky1" "flaky" "a flaky bee" [] alwaysPanics withFactories
      = (Ok (bee, b), w') /\
    trace w' = trace withFactories ++ t /\
    (exists i, i < runsIn bee t /\ alwaysPanics i <> None) /\
    addsIn h t = 1 /\
    addsIn h t < donesIn h t.
Proof.
  destruct (handle_done_once_per_attempt (Placeholder := string) (Chain := string)
              "flaky1" "flaky" "a flaky bee" [] alwaysPanics withFactories)
    as (bee & b & h & w' & t & Hrun & _ & _ & Htrace & Hadds & Hone & _ & Hmore).
  assert (H : exists i, i < runsIn bee t /\ alwaysPanics i <> None)
    by (exists 0; split; [exact Hone | discriminate]).
  exists bee, b, h, w', t. auto 10.
Defined.

(** C5, as stated, fails.  On light1, fresh from its factory, [RestartBee]
    leaves the worker with the wait group it had, now standing at two: no
    fresh completion handle was issued.  On flaky1, after its supervised run
    task gave up with the wait group at minus two, [RestartBee] panics at
    [Add(1)]: [Start] is not called and supervision is not relaunched. *)
Lemma RestartBee_does_not_issue_a_fresh_handle :
  ~ restartsAsSpecified withBees 0 /\ ~ restartsAsSpecified afterGivingUp 1.
Proof.
  split.
  - intros (w' & c & t & wk & Hrun & _ & _ & _ & _ & _ & Hfresh & _).
    destruct Hfresh as (wk' & h & Hwk' & Hh & Hnone & _).
    vm_compute in Hrun. injection Hrun as <-.
    vm_compute in Hwk'. injection Hwk' as <-.
    vm_compute in Hh. injection Hh as <-.
    vm_compute in Hnone. discriminate.
  - intros (w' & c & t & wk & Hrun & _).
    vm_compute in Hrun. discriminate.
Qed.

Lemma RestartBee_rearms_the_same_handle_witness :
  workers withBees !! 0 = Some light1Worker /\
  waitGroup (base light1Worker) = Some 0 /\
  waitGroups withBees !! 0 = Some 1%Z /\
  (-1 <= 1 < 2147483647)%Z /\
  exists w',
    RestartBee 0 withBees = (Ok tt, w') /\
    trace w' = trace withBees ++ [CallStop 0; CallSetSigChan 0 2; WgAdd 0 1;
                                  CallStart 0] /\
    goroutines w' = [TaskStartBee 0 0] /\
    waitGroups w' !! 0 = Some 2%Z.
Proof.
  assert (H1 : workers withBees !! 0 = Some light1Worker)
    by (vm_compute; reflexivity).
  assert (H2 : waitGroup (base light1Worker) = Some 0) by reflexivity.
  assert (H3 : waitGroups withBees !! 0 = Some 1%Z) by (vm_compute; reflexivity).
  assert (H4 : (-1 <= 1 < 2147483647)%Z) by lia.
  split; [exact H1|]. split; [exact H2|]. split; [exact H3|]. split; [exact H4|].
  destruct (RestartBee_rearms_the_same_handle 0 withBees light1Worker 0 1
              H1 H2 H3 H4)
    as (w' & c & wk' & Hrun & _ & _ & _).
  exists w'. split; [exact Hrun|].
  vm_compute in Hrun. injection Hrun as <-. vm_compute. auto.
Defined.

Lemma StopBees_stops_all_closes_and_clears_witness :
  map_to_list (bees withBees) ≡ₚ map_to_list (bees withBees) /\
  StopBees_range (map_to_list (bees withBees)) withBees
    = (Ok tt, snd (StopBees withBees)) /\
  (exists t, trace (snd (StopBees withBees)) = trace withBees ++ t /\
             In (CallStop 0) t /\ In (CallStop 1) t) /\
  (exists ch, eventChans (snd (StopBees withBees)) !! 0 = Some ch /\
              closed ch = true) /\
  GetBees (snd (StopBees withBees)) = (Ok [], snd (StopBees withBees)) /\
  GetBee "light1" (snd (StopBees withBees)) = (Ok None, snd (StopBees withBees)).
Proof.
  assert (H1 : map_to_list (bees withBees) ≡ₚ map_to_list (bees withBees))
    by reflexivity.
  assert (H2 : StopBees_range (map_to_list (bees withBees)) withBees
               = (Ok tt, snd (StopBees withBees)))
    by (vm_compute; reflexivity).
  split; [exact H1|]. split; [exact H2|].
  destruct (StopBees_stops_all_closes_and_clears noDescription
              withBees (snd (StopBees withBees)) _ H1 H2)
    as ((t & Htrace & Hstop) & Hin & Hclosed & _ & _ & Hlist & Hmiss).
  split; [|split; [|split; [exact Hlist | apply Hmiss]]].
  - exists t. split; [exact Htrace|].
    split; [apply (Hstop "light1") | apply (Hstop "flaky1")];
      vm_compute; reflexivity.
  - destruct Hclosed as (ch & Hch & Hc). exists ch. split; [|exact Hc].
    rewrite <- Hch. f_equal.
Defined.

Lemma register_counts_and_overwrites_witness :
  (bees unregistered = ∅ /\
   NoDup (map (nameOf unregistered) [0; 1]) /\
   Forall (fun bee => is_Some (workers unregistered !! bee)) [0; 1] /\
   exists w' r,
     forM_ [0; 1] RegisterBee unregistered = (Ok tt, w') /\
     GetBees w' = (Ok r, w') /\ length r = 2) /\
  (workers withTwin !! 2 = Some twinWorker /\
   bees withTwin !! "light1" = Some 0 /\
   exists w' r r',
     RegisterBee 2 withTwin = (Ok tt, w') /\
     GetBees withTwin = (Ok r, withTwin) /\ GetBees w' = (Ok r', w') /\
     length r' = length r /\
     GetBee "light1" w' = (Ok (Some 2), w')).
Proof.
  assert (H1 : bees unregistered = ∅) by reflexivity.
  assert (H2 : NoDup (map (nameOf unregistered) [0; 1])).
  { vm_compute. apply NoDup_cons. split; [|apply NoDup_singleton].
    rewrite list_elem_of_singleton. discriminate. }
  assert (H3 : Forall (fun bee => is_Some (workers unregistered !! bee)) [0; 1]).
  { repeat constructor; vm_compute; eexists; reflexivity. }
  assert (H4 : workers withTwin !! 2 = Some twinWorker)
    by (vm_compute; reflexivity).
  assert (H5 : bees withTwin !! BeeName (base twinWorker) = Some 0)
    by (vm_compute; reflexivity).
  split.
  - split; [exact H1|]. split; [exact H2|]. split; [exact H3|].
    exact (proj1 (register_counts_and_overwrites (Placeholder := string)
                    (BeeOption := string) (Chain := string))
             unregistered [0; 1] H1 H2 H3).
  - split; [exact H4|]. split; [exact H5|].
    destruct (proj2 (register_counts_and_overwrites (Placeholder := string)
                       (BeeOption := string) (Chain := string))
                withTwin 2 0 twinWorker H4 H5)
      as (w' & r & r' & Hrun & Hr & Hr' & Hlen & _ & Hget & _).
    exists w', r, r'. auto 10.
Defined.

(** ** Witnesses of the further properties *)

Lemma DeleteBee_stops_and_unregisters_by_name_witness :
  workers withTwin !! 2 = Some twinWorker /\
  bees withTwin !! "light1" = Some 0 /\
  exists w',
    DeleteBee 2 withTwin = (Ok tt, w') /\
    GetBee "light1" w' = (Ok None, w') /\
    size (bees w') = 1.
Proof.
  assert (H1 : workers withTwin !! 2 = Some twinWorker)
    by (vm_compute; reflexivity).
  split; [exact H1|]. split; [vm_compute; reflexivity|].
  destruct (DeleteBee_stops_and_unregisters_by_name 2 withTwin twinWorker H1)
    as (w' & Hrun & _ & Hmiss & _ & Hsize & _).
  exists w'. split; [exact Hrun|]. split; [exact Hmiss|].
  rewrite Hsize. vm_compute. reflexivity.
Defined.

Lemma register_then_delete_restores_registry_witness :
  workers unregistered !! 0 = Some light1Worker /\
  bees unregistered !! BeeName (base light1Worker) = None /\
  exists w',
    (RegisterBee 0 ;; DeleteBee 0)%go unregistered = (Ok tt, w') /\
    bees w' = bees unregistered.
Proof.
  assert (H1 : workers unregistered !! 0 = Some light1Worker)
    by (vm_compute; reflexivity).
  assert (H2 : bees unregistered !! BeeName (base light1Worker) = None)
    by (vm_compute; reflexivity).
  split; [exact H1|]. split; [exact H2|].
  destruct (register_then_delete_restores_registry 0 unregistered light1Worker
              H1 H2) as (w' & Hrun & Hbees & _).
  exists w'. auto.
Defined.

Lemma startBee_clean_run_is_not_retried_witness :
  workers withBees !! 0 = Some light1Worker /\
  waitGroups withBees !! 0 = Some 1%Z /\
  runScript light1Worker (runCalls light1Worker) = None /\
  exists w',
    startBee 0 0 withBees = (Ok tt, w') /\
    trace w' = trace withBees ++ [CallRun 0 0; WgAdd 0 (-1)] /\
    waitGroups w' !! 0 = Some 0%Z.
Proof.
  assert (H1 : workers withBees !! 0 = Some light1Worker)
    by (vm_compute; reflexivity).
  assert (H2 : waitGroup (base light1Worker) = Some 0) by reflexivity.
  assert (H3 : waitGroups withBees !! 0 = Some 1%Z) by (vm_compute; reflexivity).
  assert (H4 : (1 <= 1 <= 2147483647)%Z) by lia.
  assert (H5 : (0 < 3)%Z) by lia.
  assert (H6 : runScript light1Worker (runCalls light1Worker) = None)
    by reflexivity.
  split; [exact H1|]. split; [exact H3|]. split; [exact H6|].
  destruct (startBee_clean_run_is_not_retried 0 0 withBees light1Worker 0 1
              H1 H2 H3 H4 H5 H6) as (w' & Hrun & Htrace & Hcounter & _).
  exists w'. auto.
Defined.


Lemma startBee_returns_and_is_bounded_witness :
  workers withBees !! 1 = Some flaky1Worker /\
  exists w' t,
    startBee 1 2 withBees = (Ok tt, w') /\
    trace w' = trace withBees ++ t /\
    runsIn 1 t <= 1 /\ 1 <= runsIn 1 t.
Proof.
  assert (H1 : workers withBees !! 1 = Some flaky1Worker)
    by (vm_compute; reflexivity).
  split; [exact H1|].
  destruct (startBee_returns_and_is_bounded 1 2 withBees flaky1Worker H1)
    as (w' & t & Hrun & Htrace & Hle & Hge & _).
  exists w', t. split; [exact Hrun|]. split; [exact Htrace|].
  split; [exact Hle | apply Hge; lia].
Defined.

Lemma StartBee_registers_starts_and_supervises_witness :
  (factories withFactories !! InstanceClass ghost = None /\
   exists e, StartBee factoryNew ghost withFactories = (Panic e, withFactories)) /\
  (factories withFactories !! InstanceClass light1 = Some 7 /\
   exists w2,
     StartBee factoryNew light1 withFactories = (Ok 0, w2) /\
     GetBee "light1" w2 = (Ok (Some 0), w2) /\
     goroutines w2 = [TaskStartBee 0 0]).
Proof.
  assert (H1 : factories withFactories !! InstanceClass ghost = None)
    by (vm_compute; reflexivity).
  assert (H2 : factories withFactories !! InstanceClass light1 = Some 7)
    by (vm_compute; reflexivity).
  assert (H3 : factoryNew 7 (InstanceName light1) (InstanceDescription light1)
                 (InstanceOptions light1) withFactories
               = (Ok 0, snd (factoryNew 7 "light1" "a light" [] withFactories)))
    by (vm_compute; reflexivity).
  assert (H4 : workers (snd (factoryNew 7 "light1" "a light" [] withFactories)) !! 0
               = Some light1Worker)
    by (vm_compute; reflexivity).
  split.
  - split; [exact H1|].
    exact (proj1 (StartBee_registers_starts_and_supervises factoryNew)
             ghost withFactories H1).
  - split; [exact H2|].
    destruct (proj2 (StartBee_registers_starts_and_supervises factoryNew)
                light1 withFactories _ 7 0 light1Worker H2 H3 H4)
      as (w2 & wk' & Hrun & Hget & _ & Hgo & _).
    exists w2. auto.
Defined.

Lemma StartBees_stops_at_unknown_class_witness :
  StartBees factoryNew [light1] withFactories
    = (Ok tt, snd (StartBees factoryNew [light1] withFactories)) /\
  factories (snd (StartBees factoryNew [light1] withFactories))
    !! InstanceClass ghost = None /\
  fst (StartBees factoryNew ([light1] ++ ghost :: [flaky1]) withFactories)
    = Panic (PanicMsg "Unknown bee-class in config file: nosuchclass") /\
  bees (snd (StartBees factoryNew ([light1] ++ ghost :: [flaky1]) withFactories))
    !! "flaky1" = None.
Proof.
  assert (H1 : StartBees factoryNew [light1] withFactories
               = (Ok tt, snd (StartBees factoryNew [light1] withFactories)))
    by (vm_compute; reflexivity).
  assert (H2 : factories (snd (StartBees factoryNew [light1] withFactories))
                 !! InstanceClass ghost = None)
    by (vm_compute; reflexivity).
  split; [exact H1|]. split; [exact H2|].
  rewrite (StartBees_stops_at_unknown_class factoryNew [light1] [flaky1] ghost
             withFactories _ H1 H2).
  split; [reflexivity | vm_compute; reflexivity].
Defined.

Lemma StopBees_twice_panics_witness :
  StopBees_range (map_to_list (bees withBees)) withBees
    = (Ok tt, snd (StopBees withBees)) /\
  StopBees (snd (StopBees withBees))
    = (Panic CloseOfClosedChannel, snd (StopBees withBees)).
Proof.
  assert (H1 : StopBees_range (map_to_list (bees withBees)) withBees
               = (Ok tt, snd (StopBees withBees)))
    by (vm_compute; reflexivity).
  split; [exact H1|].
  exact (StopBees_twice_panics _ withBees _ H1).
Defined.

Lemma factoryNew_keeps {B} (f : World -> B) fa n d o :
  (forall t w, f (set_trace t w) = f w) ->
  (forall h w, f (set_workers h w) = f w) ->
  (forall h w, f (set_waitGroups h w) = f w) ->
  (forall s w, f (set_sigChans s w) = f w) ->
  keeps f (factoryNew fa n d o).
Proof.
  intros Ht Hw Hg Hs w.
  assert (H : forall fn script,
            f (snd (scriptedNew fn script fa n d o w)) = f w).
  { intros fn script. unfold scriptedNew, bind.
    rewrite NewBee_result. unfold allocWorker. simpl.
    by rewrite Hw, Ht, Hg, Hs. }
  unfold factoryNew. repeat case_match; apply H.
Defined.

Lemma RestartBees_opens_a_new_channel_witness :
  StopBees withBees = (Ok tt, snd (StopBees withBees)) /\
  exists r w',
    RestartBees factoryNew [light1; flaky1] withBees = (r, w') /\
    eventsIn w' <> eventsIn withBees /\
    eventChans w' !! eventsIn w' = Some (mkEventChan [] false) /\
    eventChans w' !! eventsIn withBees = Some (mkEventChan [] true).
Proof.
  assert (H1 : StopBees withBees = (Ok tt, snd (StopBees withBees)))
    by (vm_compute; reflexivity).
  split; [exact H1|].
  destruct (RestartBees_opens_a_new_channel factoryNew [light1; flaky1]
              withBees _
              (fun fa n d o => factoryNew_keeps eventsIn fa n d o
                 (fun _ _ => eq_refl) (fun _ _ => eq_refl)
                 (fun _ _ => eq_refl) (fun _ _ => eq_refl))
              (fun fa n d o => factoryNew_keeps eventChans fa n d o
                 (fun _ _ => eq_refl) (fun _ _ => eq_refl)
                 (fun _ _ => eq_refl) (fun _ _ => eq_refl))
              H1)
    as (r & w' & Hrun & Hne & _ & Hnew & Hold).
  exists r, w'. auto.
Defined.

Lemma RestartBee_panics_on_overdrawn_handle_witness :
  workers afterGivingUp !! 1 = Some abandonedWorker /\
  waitGroups afterGivingUp !! 1 = Some (-2)%Z /\
  exists w',
    RestartBee 1 afterGivingUp = (Panic NegativeWaitGroupCounter, w') /\
    goroutines w' = goroutines afterGivingUp /\
    waitGroups w' !! 1 = Some (-1)%Z.
Proof.
  assert (H1 : workers afterGivingUp !! 1 = Some abandonedWorker)
    by (vm_compute; reflexivity).
  assert (H2 : waitGroup (base abandonedWorker) = Some 1) by reflexivity.
  assert (H3 : waitGroups afterGivingUp !! 1 = Some (-2)%Z)
    by (vm_compute; reflexivity).
  assert (H4 : (-2147483648 <= -2 < -1)%Z) by lia.
  split; [exact H1|]. split; [exact H3|].
  destruct (RestartBee_panics_on_overdrawn_handle 1 afterGivingUp
              abandonedWorker 1 (-2) H1 H2 H3 H4)
    as (w' & wk' & Hrun & _ & Hgo & Hcounter & _).
  exists w'. auto.
Defined.

Lemma abandoned_worker_cannot_be_restarted_witness :
  workers withBees !! 1 = Some flaky1Worker /\
  waitGroups withBees !! 1 = Some 1%Z /\
  exists w',
    (startBee 1 0 ;; RestartBee 1)%go withBees
      = (Panic NegativeWaitGroupCounter, w') /\
    goroutines w' = goroutines withBees.
Proof.
  assert (H1 : workers withBees !! 1 = Some flaky1Worker)
    by (vm_compute; reflexivity).
  assert (H2 : waitGroup (base flaky1Worker) = Some 1) by reflexivity.
  assert (H3 : waitGroups withBees !! 1 = Some 1%Z) by (vm_compute; reflexivity).
  assert (H4 : runScript flaky1Worker (runCalls flaky1Worker)
               = Some (PanicMsg "boom")) by reflexivity.
  split; [exact H1|]. split; [exact H3|].
  destruct (abandoned_worker_cannot_be_restarted 1 withBees flaky1Worker 1 _
              H1 H2 H3 H4) as (w' & t & Hrun & _ & _ & Hgo & _).
  exists w'. auto.
Defined.

Lemma handleEvents_starts_one_task_per_event_witness :
  eventChans withTwoEvents !! eventsIn withTwoEvents
    = Some (mkEventChan [light1On; flaky1Hello] false) /\
  exists w',
    handleEvents noDescription 3 withTwoEvents = (Ok Waiting, w') /\
    goroutines w' = [TaskChain light1On; TaskChain flaky1Hello].
Proof.
  assert (H1 : eventChans withTwoEvents !! eventsIn withTwoEvents
               = Some (mkEventChan [light1On; flaky1Hello] false))
    by (vm_compute; reflexivity).
  assert (H2 : forall (ev : Event) (w0 : World),
            exists d, noDescription ev w0 = (Ok d, w0))
    by (intros ev w0; by eexists).
  assert (H3 : Forall (fun event : Event => exists bee,
                  bees withTwoEvents !! EventBee event = Some bee /\
                  is_Some (workers withTwoEvents !! bee))
                [light1On; flaky1Hello]).
  { repeat constructor.
    - exists 0. split; vm_compute; [reflexivity | by eexists].
    - exists 1. split; vm_compute; [reflexivity | by eexists]. }
  assert (H4 : length [light1On; flaky1Hello] < 3) by (simpl; lia).
  split; [exact H1|].
  destruct (handleEvents_starts_one_task_per_event noDescription
              [light1On; flaky1Hello] 3 withTwoEvents H2 H1 H3 H4)
    as (w' & Hrun & Hgo & _).
  exists w'. split; [exact Hrun|]. rewrite Hgo. reflexivity.
Defined.

Lemma descriptor_panic_halts_the_dispatcher_witness :
  eventChans withTwoEvents !! eventsIn withTwoEvents
    = Some (mkEventChan (light1On :: [flaky1Hello]) false) /\
  bees withTwoEvents !! EventBee light1On = Some 0 /\
  exists w',
    handleEvents panickingDescription 3 withTwoEvents
      = (Panic (PanicMsg "no descriptor"), w') /\
    goroutines w' = [] /\
    sendq <$> eventChans w' !! 0 = Some [flaky1Hello].
Proof.
  assert (H1 : eventChans withTwoEvents !! eventsIn withTwoEvents
               = Some (mkEventChan (light1On :: [flaky1Hello]) false))
    by (vm_compute; reflexivity).
  assert (H2 : bees withTwoEvents !! EventBee light1On = Some 0)
    by (vm_compute; reflexivity).
  assert (H3 : workers withTwoEvents !! 0 = Some light1Worker)
    by (vm_compute; reflexivity).
  assert (H4 : forall w0 : World, exists w0',
            panickingDescription light1On w0
              = (Panic (PanicMsg "no descriptor"), w0'))
    by (intros w0; by eexists).
  split; [exact H1|]. split; [exact H2|].
  destruct (descriptor_panic_halts_the_dispatcher panickingDescription 2
              withTwoEvents light1On [flaky1Hello] 0 light1Worker _
              H4 H1 H2 H3)
    as (w0 & w' & Hrun & Hd & Hgo & Hch & _).
  exists w'. split; [exact Hrun|].
  injection Hd as <-. rewrite Hgo, Hch. split; vm_compute; reflexivity.
Defined.

Lemma StopBees_drops_waiting_events_witness :
  StopBees_range (map_to_list (bees withTwoEvents)) withTwoEvents
    = (Ok tt, snd (StopBees withTwoEvents)) /\
  exists w'',
    handleEvents noDescription 3 (snd (StopBees withTwoEvents))
      = (Ok Returned, w'') /\
    goroutines w'' = [].
Proof.
  assert (H1 : StopBees_range (map_to_list (bees withTwoEvents)) withTwoEvents
               = (Ok tt, snd (StopBees withTwoEvents)))
    by (vm_compute; reflexivity).
  split; [exact H1|].
  destruct (StopBees_drops_waiting_events noDescription _ withTwoEvents _ 2 H1)
    as (w'' & Hrun & _ & Hgo & _).
  exists w''. split; [exact Hrun|]. rewrite Hgo. reflexivity.
Defined.
